(** * Task manager: dashboard filter, notifications, form validation,
      registration/login error handling and the task repository hook.

    A shallow embedding of the TypeScript sources
    (components/TaskManager.tsx, TaskForm.tsx, TaskCard.tsx, Register.tsx,
    Login.tsx and hooks/useTasks.ts) together with the properties the
    specification states about them.

    Conventions.
    - A JavaScript string is a [string]: a sequence of code units, here the
      code units below 256 (ASCII and Latin-1), on which [length],
      [toLowerCase], [trim] and [includes] are the ones of JavaScript.
    - [a === b] on strings is [bool_decide (a = b)]; a string used as a
      condition is true when it is not empty.
    - A JavaScript object used as a dictionary (the [errors] objects, the
      record handed to [addDoc]) is a [gmap string _].
    - React state is a record; a handler is a function from the state (and
      from the outcome of the promise it awaits) to the state after the
      handler has run, paired with the calls it made to its collaborators. *)

From Stdlib Require Import Ascii.
From stdpp Require Import base decidable option list gmap strings fin_maps.

(* ===================================================================== *)
(** * Part I: the program                                                 *)
(* ===================================================================== *)

(** ** JavaScript strings *)

Module Js.

(** Code unit of a character. *)
Definition code (a : ascii) : nat := nat_of_ascii a.

(** Upper-case letters among the code units below 256: A-Z, and
    U+00C0..U+00DE without the multiplication sign U+00D7. Each has its
    lower-case partner 32 code units further. *)
Definition is_upper (a : ascii) : bool :=
  let c := code a in
  ((65 <=? c) && (c <=? 90))
  || ((192 <=? c) && (c <=? 222) && negb (c =? 215)).

Definition lower_char (a : ascii) : ascii :=
  if is_upper a then ascii_of_nat (code a + 32) else a.

(** [String.prototype.toLowerCase]. *)
Fixpoint toLowerCase (s : string) : string :=
  match s with
  | EmptyString => EmptyString
  | String a s' => String (lower_char a) (toLowerCase s')
  end.

(** [q] is a prefix of [s]. *)
Fixpoint startsWith (s q : string) : bool :=
  match q, s with
  | EmptyString, _ => true
  | String _ _, EmptyString => false
  | String b q', String a s' => bool_decide (a = b) && startsWith s' q'
  end.

(** [String.prototype.includes]: [q] occurs in [s] as a substring. *)
Fixpoint includes (s q : string) : bool :=
  startsWith s q ||
  match s with
  | EmptyString => false
  | String _ s' => includes s' q
  end.

(** White space and line terminators removed by [trim], among the code
    units below 256: TAB, LF, VT, FF, CR, SPACE and NBSP. *)
Definition is_white (a : ascii) : bool :=
  let c := code a in
  ((9 <=? c) && (c <=? 13)) || (c =? 32) || (c =? 160).

Fixpoint trimStart (s : string) : string :=
  match s with
  | EmptyString => EmptyString
  | String a s' => if is_white a then trimStart s' else s
  end.

Definition trimEnd (s : string) : string :=
  String.rev (trimStart (String.rev s)).

(** [String.prototype.trim]. *)
Definition trim (s : string) : string := trimEnd (trimStart s).

(** A string as a condition: [if (s)], [!s]. *)
Definition truthy (s : string) : bool := negb (bool_decide (s = "")).

End Js.

(** [q] occurs in [s]: the relation [Js.includes] decides. *)
Definition contains (s q : string) : Prop := ∃ p r, s = p +:+ q +:+ r.

(** ** types/Task.ts *)

Inductive Priority := low | medium | high.

Definition priority_str (p : Priority) : string :=
  match p with low => "low" | medium => "medium" | high => "high" end.

Module Task.
Record t := mk {
  id : string;
  title : string;
  description : string;
  category : string;
  priority : Priority;
  dueDate : string;
  completed : bool
}.
End Task.

(** JavaScript arrays live in a store; [Array.prototype.filter] allocates
    its result at a fresh location. *)
Definition loc := positive.
Abbreviation store := (gmap loc (list Task.t)).

Definition Array_filter (cb : Task.t → bool) (arr : loc) (σ : store)
  : option (loc * store) :=
  match σ !! arr with
  | None => None
  | Some l => let r := fresh (dom σ) in Some (r, <[r := List.filter cb l]> σ)
  end.

(** ** components/TaskManager.tsx: the filter combinator *)

Module TaskManager.

(** The four [useState] cells holding the filter predicates. *)
Record Filters := mkFilters {
  filter : string;
  searchQuery : string;
  categoryFilter : string;
  priorityFilter : string
}.

(** The callback passed to [tasks.filter]. *)
Definition keep (f : Filters) (task : Task.t) : bool :=
  if bool_decide (filter f = "completed") && negb (Task.completed task)
  then false
  else if bool_decide (filter f = "active") && Task.completed task
  then false
  else if negb (bool_decide (categoryFilter f = "all"))
          && negb (bool_decide (Task.category task = categoryFilter f))
  then false
  else if negb (bool_decide (priorityFilter f = "all"))
          && negb (bool_decide (priority_str (Task.priority task) = priorityFilter f))
  then false
  else if Js.truthy (searchQuery f)
  then
    let query := Js.toLowerCase (searchQuery f) in
    Js.includes (Js.toLowerCase (Task.title task)) query
    || Js.includes (Js.toLowerCase (Task.description task)) query
  else true.

(** [const filteredTasks = tasks.filter(...)] on the array contents. *)
Definition filteredTasks (f : Filters) (tasks : list Task.t) : list Task.t :=
  List.filter (keep f) tasks.

(** The same, on the store: [tasks] is the location of the input. *)
Definition render_filteredTasks (f : Filters) (tasks : loc) (σ : store)
  : option (loc * store) :=
  Array_filter (keep f) tasks σ.

(** The free-text test of the search branch alone. *)
Definition text_match (q : string) (task : Task.t) : bool :=
  Js.includes (Js.toLowerCase (Task.title task)) (Js.toLowerCase q)
  || Js.includes (Js.toLowerCase (Task.description task)) (Js.toLowerCase q).

(** *** Notifications

    The [notification] cell together with the browser's timer queue:
    the times (in ms) at which the pending
    [setTimeout(() => setNotification(null), 3000)] callbacks are due,
    oldest first, and the current time. *)

Inductive NotificationType := success | error.

Record Notification := mkNotification {
  message : string;
  type : NotificationType
}.

Record Dashboard := mkDashboard {
  notification : option Notification;
  timers : list nat;
  now : nat
}.

(** First render: [useState(null)], nothing scheduled. *)
Definition initial : Dashboard := mkDashboard None [] 0.

Definition showNotification (message : string) (type : NotificationType)
    (d : Dashboard) : Dashboard :=
  {| notification := Some (mkNotification message type);
     timers := timers d ++ [now d + 3000];
     now := now d |}.

(** [dt] ms pass: every timer that came due has run its callback
    [setNotification(null)] and has left the queue. *)
Definition elapse (dt : nat) (d : Dashboard) : Dashboard :=
  let t := now d + dt in
  {| notification :=
       match List.filter (λ due, due <=? t) (timers d) with
       | [] => notification d
       | _ :: _ => None
       end;
     timers := List.filter (λ due, negb (due <=? t)) (timers d);
     now := t |}.

Inductive Event :=
| Show (message : string) (type : NotificationType)
| Elapse (dt : nat).

Definition step (d : Dashboard) (e : Event) : Dashboard :=
  match e with
  | Show m ty => showNotification m ty d
  | Elapse dt => elapse dt d
  end.

Definition run (es : list Event) : Dashboard := fold_left step es initial.

End TaskManager.

(** ** Promises

    What an awaited call does: it resolves, or it rejects with a thrown
    value that is an [Error] carrying a message, or something else. *)

Inductive Thrown := ErrorObj (message : string) | NotAnError.
Inductive Promise := Resolves | Rejects (err : Thrown).

(** ** Validation: components/TaskCard.tsx and components/TaskForm.tsx *)

(** The [errors] objects, [{ [key: string]: string }]. *)
Abbreviation Errors := (gmap string string).

(** [Object.keys(o).length === 0]. *)
Definition no_keys (o : Errors) : bool := bool_decide (size o = 0).

Module TaskCard.

(** [validateTask]: the errors it stores with [setErrors] and the
    boolean it returns. *)
Definition validateTask (editedTask : Task.t) : Errors * bool :=
  let newErrors : Errors := ∅ in
  let newErrors :=
    if negb (Js.truthy (Js.trim (Task.title editedTask)))
    then <["title" := "Title is required"]> newErrors
    else if String.length (Js.trim (Task.title editedTask)) <? 3
    then <["title" := "Title must be at least 3 characters"]> newErrors
    else newErrors in
  let newErrors :=
    if negb (Js.truthy (Js.trim (Task.description editedTask)))
    then <["description" := "Description is required"]> newErrors
    else if String.length (Js.trim (Task.description editedTask)) <? 10
    then <["description" := "Description must be at least 10 characters"]> newErrors
    else newErrors in
  (newErrors, no_keys newErrors).

End TaskCard.

Module TaskForm.

Record State := mkState {
  title : string;
  description : string;
  category : string;
  priority : Priority;
  dueDate : string;
  errors : Errors;
  isSubmitting : bool
}.

(** The argument of [onSubmit]: [Omit<Task, 'id' | 'completed'>]. *)
Record NewTask := mkNewTask {
  new_title : string;
  new_description : string;
  new_category : string;
  new_priority : Priority;
  new_dueDate : string
}.

(** The [useState] initial values; [today] is
    [new Date().toISOString().split('T')[0]]. *)
Definition initial (today : string) : State :=
  mkState "" "" "Personal" medium today ∅ false.

Definition validateForm (st : State) : Errors * bool :=
  let newErrors : Errors := ∅ in
  let newErrors :=
    if negb (Js.truthy (Js.trim (title st)))
    then <["title" := "Title is required"]> newErrors
    else if String.length (Js.trim (title st)) <? 3
    then <["title" := "Title must be at least 3 characters"]> newErrors
    else newErrors in
  let newErrors :=
    if negb (Js.truthy (Js.trim (description st)))
    then <["description" := "Description is required"]> newErrors
    else if String.length (Js.trim (description st)) <? 10
    then <["description" := "Description must be at least 10 characters"]> newErrors
    else newErrors in
  let newErrors :=
    if negb (Js.truthy (dueDate st))
    then <["dueDate" := "Due date is required"]> newErrors
    else newErrors in
  (newErrors, no_keys newErrors).

(** [handleSubmit]: the state once the handler has finished and the
    calls made to [onSubmit]. [today] is the date read when the form is
    reset. *)
Definition handleSubmit (today : string) (onSubmit : NewTask → Promise)
    (st : State) : State * list NewTask :=
  let '(newErrors, valid) := validateForm st in
  if negb valid
  then (mkState (title st) (description st) (category st) (priority st)
          (dueDate st) newErrors (isSubmitting st), [])
  else
    let task := mkNewTask (Js.trim (title st)) (Js.trim (description st))
                  (category st) (priority st) (dueDate st) in
    match onSubmit task with
    | Resolves =>
        (mkState "" "" "Personal" medium today ∅ false, [task])
    | Rejects _ =>
        (mkState (title st) (description st) (category st) (priority st)
           (dueDate st) newErrors false, [task])
    end.

End TaskForm.

(** ** components/Register.tsx *)

Module Register.

Record State := mkState {
  email : string;
  password : string;
  confirmPassword : string;
  error : option string;
  success : option string;
  loading : bool
}.

Inductive Effect :=
| createUserWithEmailAndPassword (email password : string)
| navigateAfter (path : string) (ms : nat).

Definition handleSubmit (signUp : string → string → Promise) (st : State)
  : State * list Effect :=
  if negb (bool_decide (password st = confirmPassword st))
  then (mkState (email st) (password st) (confirmPassword st)
          (Some "Passwords do not match") None (loading st), [])
  else if String.length (password st) <? 6
  then (mkState (email st) (password st) (confirmPassword st)
          (Some "Password must be at least 6 characters long") None
          (loading st), [])
  else
    let call := createUserWithEmailAndPassword (email st) (password st) in
    match signUp (email st) (password st) with
    | Resolves =>
        (mkState (email st) (password st) (confirmPassword st) None
           (Some "Account created successfully! Redirecting to dashboard...")
           false,
         [call; navigateAfter "/" 1500])
    | Rejects (ErrorObj message) =>
        (mkState (email st) (password st) (confirmPassword st)
           (Some message) None false, [call])
    | Rejects NotAnError =>
        (mkState (email st) (password st) (confirmPassword st)
           (Some "An unknown error occurred") None false, [call])
    end.

End Register.

(** ** components/Login.tsx *)

Module Login.

Record State := mkState {
  email : string;
  password : string;
  error : option string;
  loading : bool
}.

Inductive Effect :=
| signInWithEmailAndPassword (email password : string)
| navigate (path : string).

(** The value of [errorMessage] when it reaches [setError]. *)
Definition errorMessage (message : string) : string :=
  if Js.includes message "invalid-credential"
     || Js.includes message "user-not-found"
     || Js.includes message "wrong-password"
  then "Invalid email or password. Please try again."
  else if Js.includes message "too-many-requests"
  then "Too many failed attempts. Please try again later."
  else message.

Definition handleSubmit (signIn : string → string → Promise) (st : State)
  : State * list Effect :=
  let call := signInWithEmailAndPassword (email st) (password st) in
  match signIn (email st) (password st) with
  | Resolves =>
      (mkState (email st) (password st) None false, [call; navigate "/"])
  | Rejects (ErrorObj message) =>
      (mkState (email st) (password st) (Some (errorMessage message)) false,
       [call])
  | Rejects NotAnError =>
      (mkState (email st) (password st) (Some "An unknown error occurred")
         false, [call])
  end.

End Login.

(** ** hooks/useTasks.ts *)

Module useTasks.

(** The part of the identity service's [User] the hook reads. *)
Record User := mkUser { uid : string }.

(** Field values of the records written to the database. *)
Inductive Value := VStr (s : string) | VBool (b : bool).

(** [query(collection(db, coll), where(field, '==', value))]. *)
Record Query := mkQuery { coll : string; field : string; value : string }.

(** Calls into the document database. *)
Inductive Call :=
| onSnapshot (q : Query)
| unsubscribe (q : Query)
| addDoc (collection : string) (data : gmap string Value).

(** The three [useState] cells, and the cleanup the last run of the
    effect returned: [Some q] is the [unsubscribe] of the listener on [q]. *)
Record State := mkState {
  tasks : list Task.t;
  loading : bool;
  error : option string;
  cleanup : option Query
}.

Definition initial : State := mkState [] true None None.

(** The body of the effect, run with the current [user]. *)
Definition effect (user : option User) (st : State) : State * list Call :=
  match user with
  | None => (mkState [] false (error st) None, [])
  | Some u =>
      let q := mkQuery "tasks" "userId" (uid u) in
      (mkState (tasks st) (loading st) None (Some q), [onSnapshot q])
  end.

(** [useEffect(..., [user])]: when [user] changes the previous cleanup
    runs, then the body. *)
Definition user_changed (user : option User) (st : State)
  : State * list Call :=
  let cleaned := match cleanup st with
                 | Some q => [unsubscribe q]
                 | None => []
                 end in
  let '(st', calls) := effect user st in
  (st', cleaned ++ calls).

(** The listener's callbacks. [tasksData] is the snapshot's documents
    once mapped to tasks. *)
Definition on_next (tasksData : list Task.t) (st : State) : State :=
  mkState tasksData false (error st) (cleanup st).

Definition on_error (st : State) : State :=
  mkState (tasks st) false
    (Some "Failed to load tasks. Please refresh the page.") (cleanup st).

(** What can happen to a mounted hook. A listener that is not registered
    delivers nothing. *)
Inductive Event :=
| UserChanged (user : option User)
| Snapshot (tasksData : list Task.t)
| SnapshotError.

Definition step (st : State) (e : Event) : State * list Call :=
  match e with
  | UserChanged user => user_changed user st
  | Snapshot tasksData =>
      (match cleanup st with Some _ => on_next tasksData st | None => st end,
       [])
  | SnapshotError =>
      (match cleanup st with Some _ => on_error st | None => st end, [])
  end.

(** The calls a sequence of events makes, and the state it leaves. *)
Fixpoint run_hook (st : State) (es : list Event) : State * list Call :=
  match es with
  | [] => (st, [])
  | e :: es' =>
      let '(st1, calls1) := step st e in
      let '(st2, calls2) := run_hook st1 es' in
      (st2, calls1 ++ calls2)
  end.

Definition is_subscription (c : Call) : bool :=
  match c with onSnapshot _ => true | _ => false end.

Inductive Result := Returned | Threw (message : string).

(** [addTask]; [written] is what awaiting [addDoc] does. *)
Definition addTask (user : option User) (written : Promise)
    (task : gmap string Value) : Result * list Call :=
  match user with
  | None => (Threw "User not authenticated", [])
  | Some u =>
      let data := <["userId" := VStr (uid u)]>
                    (<["completed" := VBool false]> task) in
      (match written with
       | Resolves => Returned
       | Rejects _ => Threw "Failed to add task"
       end,
       [addDoc "tasks" data])
  end.

End useTasks.

(** ** hooks/useTasks.ts: the other operations *)

Module Repository.
Import useTasks.

(** Writes on [doc(db, collection, id)]. Identifiers are the document
    identifiers the database assigned, for which [doc] builds a reference. *)
Inductive Write :=
| updateDoc (collection id : string) (data : gmap string Value)
| deleteDoc (collection id : string).

Definition updateTask (written : Promise) (id : string)
    (updatedTask : gmap string Value) : Result * list Write :=
  (match written with
   | Resolves => Returned
   | Rejects _ => Threw "Failed to update task"
   end,
   [updateDoc "tasks" id updatedTask]).

Definition deleteTask (written : Promise) (id : string)
  : Result * list Write :=
  (match written with
   | Resolves => Returned
   | Rejects _ => Threw "Failed to delete task"
   end,
   [deleteDoc "tasks" id]).

Definition toggleTaskCompletion (written : Promise) (id : string)
    (completed : bool) : Result * list Write :=
  (match written with
   | Resolves => Returned
   | Rejects _ => Threw "Failed to update task status"
   end,
   [updateDoc "tasks" id {[ "completed" := VBool completed ]}]).

(** The snapshot callback's [{ id: doc.id, ...doc.data() }]: the fields of
    the document, over an [id] entry holding the document identifier. *)
Definition task_of_doc (doc_id : string) (data : gmap string Value)
  : gmap string Value :=
  data ∪ {[ "id" := VStr doc_id ]}.

#[global] Instance Value_eq_dec : EqDecision Value.
Proof. solve_decision. Defined.

(** A document satisfies [where(field, '==', value)]. *)
Definition matches (q : Query) (data : gmap string Value) : bool :=
  bool_decide (data !! field q = Some (VStr (value q))).

#[global] Instance Query_eq_dec : EqDecision Query.
Proof. solve_decision. Defined.

(** The database's registry of listeners: [onSnapshot] registers one, the
    function it returns removes it. *)
Fixpoint remove_listener (q : Query) (active : list Query) : list Query :=
  match active with
  | [] => []
  | q' :: rest => if decide (q = q') then rest else q' :: remove_listener q rest
  end.

Fixpoint listeners (active : list Query) (calls : list Call) : list Query :=
  match calls with
  | [] => active
  | onSnapshot q :: calls' => listeners (active ++ [q]) calls'
  | unsubscribe q :: calls' => listeners (remove_listener q active) calls'
  | addDoc _ _ :: calls' => listeners active calls'
  end.

End Repository.

(** ** hooks/useAuth.ts and components/ProtectedRoute.tsx *)

Module useAuth.

Record State := mkState {
  user : option useTasks.User;
  loading : bool
}.

Definition initial : State := mkState None true.

(** The callback given to [onAuthStateChanged]. *)
Definition on_auth_state (u : option useTasks.User) (st : State) : State :=
  mkState u false.

(** The hook after the identity service delivered [us], oldest first. *)
Definition run (us : list (option useTasks.User)) : State :=
  fold_left (λ st u, on_auth_state u st) us initial.

End useAuth.

Module ProtectedRoute.

Inductive View := Spinner | Outlet | Navigate (to : string).

Definition render (st : useAuth.State) : View :=
  if useAuth.loading st then Spinner
  else match useAuth.user st with
       | Some _ => Outlet
       | None => Navigate "/login"
       end.

End ProtectedRoute.

(** ** components/TaskForm.tsx: the inputs' change handlers *)

(** [errors.k] used as a condition. *)
Definition error_shown (errors : Errors) (k : string) : bool :=
  match errors !! k with
  | Some m => Js.truthy m
  | None => false
  end.

Module TaskFormInput.
Import TaskForm.

Definition onTitleChange (v : string) (st : State) : State :=
  mkState v (description st) (category st) (priority st) (dueDate st)
    (if error_shown (errors st) "title"
     then <["title" := ""]> (errors st) else errors st)
    (isSubmitting st).

Definition onDescriptionChange (v : string) (st : State) : State :=
  mkState (title st) v (category st) (priority st) (dueDate st)
    (if error_shown (errors st) "description"
     then <["description" := ""]> (errors st) else errors st)
    (isSubmitting st).

Definition onCategoryChange (v : string) (st : State) : State :=
  mkState (title st) (description st) v (priority st) (dueDate st)
    (errors st) (isSubmitting st).

Definition onPriorityChange (v : Priority) (st : State) : State :=
  mkState (title st) (description st) (category st) v (dueDate st)
    (errors st) (isSubmitting st).

Definition onDueDateChange (v : string) (st : State) : State :=
  mkState (title st) (description st) (category st) (priority st) v
    (if error_shown (errors st) "dueDate"
     then <["dueDate" := ""]> (errors st) else errors st)
    (isSubmitting st).

(** The object literal handed to [onSubmit]. *)
Definition to_obj (t : NewTask) : gmap string useTasks.Value :=
  {[ "title" := useTasks.VStr (new_title t);
     "description" := useTasks.VStr (new_description t);
     "category" := useTasks.VStr (new_category t);
     "priority" := useTasks.VStr (priority_str (new_priority t));
     "dueDate" := useTasks.VStr (new_dueDate t) ]}.

End TaskFormInput.

(** ** components/TaskCard.tsx: the card's state and handlers *)

Module TaskCardView.

Record State := mkState {
  isEditing : bool;
  editedTask : Task.t;
  errors : Errors;
  isSaving : bool;
  isDeleting : bool;
  showDeleteModal : bool
}.

(** [useState(false)], [useState(task)], [useState({})], ... *)
Definition initial (task : Task.t) : State :=
  mkState false task ∅ false false false.

(** Calls of the card's props. *)
Inductive Effect :=
| onToggle (id : string) (completed : bool)
| onDelete (id : string)
| onEdit (id : string) (updatedTask : Task.t).

(** [handleSave]; [saved] is what awaiting [onEdit] does. *)
Definition handleSave (task : Task.t) (saved : Promise) (st : State)
  : State * list Effect :=
  let '(newErrors, valid) := TaskCard.validateTask (editedTask st) in
  if negb valid
  then (mkState (isEditing st) (editedTask st) newErrors (isSaving st)
          (isDeleting st) (showDeleteModal st), [])
  else
    let call := onEdit (Task.id task) (editedTask st) in
    match saved with
    | Resolves =>
        (mkState false (editedTask st) ∅ false (isDeleting st)
           (showDeleteModal st), [call])
    | Rejects _ =>
        (mkState (isEditing st) (editedTask st) newErrors false
           (isDeleting st) (showDeleteModal st), [call])
    end.

Definition handleCancel (task : Task.t) (st : State) : State :=
  mkState false task ∅ (isSaving st) (isDeleting st) (showDeleteModal st).

(** [handleDelete]; [deleted] is what awaiting [onDelete] does. *)
Definition handleDelete (task : Task.t) (deleted : Promise) (st : State)
  : State * list Effect :=
  (mkState (isEditing st) (editedTask st) (errors st) (isSaving st) false false,
   [onDelete (Task.id task)]).

(** The [onChange] handlers of the edit form. *)
Definition onTitleChange (v : string) (st : State) : State :=
  let e := editedTask st in
  mkState (isEditing st)
    (Task.mk (Task.id e) v (Task.description e) (Task.category e)
       (Task.priority e) (Task.dueDate e) (Task.completed e))
    (if error_shown (errors st) "title"
     then <["title" := ""]> (errors st) else errors st)
    (isSaving st) (isDeleting st) (showDeleteModal st).

Definition onDescriptionChange (v : string) (st : State) : State :=
  let e := editedTask st in
  mkState (isEditing st)
    (Task.mk (Task.id e) (Task.title e) v (Task.category e)
       (Task.priority e) (Task.dueDate e) (Task.completed e))
    (if error_shown (errors st) "description"
     then <["description" := ""]> (errors st) else errors st)
    (isSaving st) (isDeleting st) (showDeleteModal st).

Definition onPriorityChange (v : Priority) (st : State) : State :=
  let e := editedTask st in
  mkState (isEditing st)
    (Task.mk (Task.id e) (Task.title e) (Task.description e) (Task.category e)
       v (Task.dueDate e) (Task.completed e))
    (errors st) (isSaving st) (isDeleting st) (showDeleteModal st).

Definition onDueDateChange (v : string) (st : State) : State :=
  let e := editedTask st in
  mkState (isEditing st)
    (Task.mk (Task.id e) (Task.title e) (Task.description e) (Task.category e)
       (Task.priority e) v (Task.completed e))
    (errors st) (isSaving st) (isDeleting st) (showDeleteModal st).

(** What the user can do with a rendered card. The edit form replaces the
    card's buttons and its confirmation dialog; the dialog renders nothing
    while [showDeleteModal] is false. *)
Inductive Event :=
| ClickToggle
| ClickEdit
| ClickDelete
| ConfirmDelete (deleted : Promise)
| CancelDelete
| ChangeTitle (v : string)
| ChangeDescription (v : string)
| ChangePriority (v : Priority)
| ChangeDueDate (v : string)
| ClickSave (saved : Promise)
| ClickCancel.

Definition step (task : Task.t) (st : State) (e : Event)
  : State * list Effect :=
  if isEditing st then
    match e with
    | ChangeTitle v => (onTitleChange v st, [])
    | ChangeDescription v => (onDescriptionChange v st, [])
    | ChangePriority v => (onPriorityChange v st, [])
    | ChangeDueDate v => (onDueDateChange v st, [])
    | ClickSave saved => handleSave task saved st
    | ClickCancel => (handleCancel task st, [])
    | _ => (st, [])
    end
  else
    match e with
    | ClickToggle => (st, [onToggle (Task.id task) (Task.completed task)])
    | ClickEdit =>
        (mkState true (editedTask st) (errors st) (isSaving st)
           (isDeleting st) (showDeleteModal st), [])
    | ClickDelete =>
        (mkState (isEditing st) (editedTask st) (errors st) (isSaving st)
           (isDeleting st) true, [])
    | ConfirmDelete deleted =>
        if showDeleteModal st then handleDelete task deleted st else (st, [])
    | CancelDelete =>
        if showDeleteModal st
        then (mkState (isEditing st) (editedTask st) (errors st) (isSaving st)
                (isDeleting st) false, [])
        else (st, [])
    | _ => (st, [])
    end.

Fixpoint run (task : Task.t) (st : State) (es : list Event)
  : State * list Effect :=
  match es with
  | [] => (st, [])
  | e :: es' =>
      let '(st1, out1) := step task st e in
      let '(st2, out2) := run task st1 es' in
      (st2, out1 ++ out2)
  end.

(** [getPriorityColor]. *)
Definition getPriorityColor (priority : string) : string :=
  if bool_decide (priority = "high") then "bg-red-100 border-red-500"
  else if bool_decide (priority = "medium") then "bg-yellow-100 border-yellow-500"
  else if bool_decide (priority = "low") then "bg-green-100 border-green-500"
  else "bg-gray-100 border-gray-500".

End TaskCardView.

(** A task of the application is an object read from a snapshot,
    [{ id: doc.id, ...doc.data() }]: besides the fields the [Task] interface
    declares, which [Task.t] holds, it carries the other fields of its
    document (the [userId] the query selects on, for one), and the card's
    [{ ...editedTask, title: ... }] keeps them. [undeclared t] stands for
    these other fields of the object of [t]. *)
Class TaskObjects := undeclared : Task.t → gmap string useTasks.Value.

(** Task objects whose only other field is the owner's identifier. *)
Definition owned_by (uid : string) : TaskObjects :=
  λ _, {[ "userId" := useTasks.VStr uid ]}.

(** The object of a task, as passed to [updateTask]: the declared fields
    with the values of [t], and the other fields it carries. *)
Definition task_obj `{objs : TaskObjects} (t : Task.t)
  : gmap string useTasks.Value :=
  {[ "id" := useTasks.VStr (Task.id t);
     "title" := useTasks.VStr (Task.title t);
     "description" := useTasks.VStr (Task.description t);
     "category" := useTasks.VStr (Task.category t);
     "priority" := useTasks.VStr (priority_str (Task.priority t));
     "dueDate" := useTasks.VStr (Task.dueDate t);
     "completed" := useTasks.VBool (Task.completed t) ]}
  ∪ undeclared t.

(** ** components/TaskManager.tsx: the handlers *)

Module Dashboard.
Import TaskManager.

(** The dashboard's other state cells; [notes] is the notification cell
    with its timers. *)
Record UI := mkUI {
  showForm : bool;
  showLogoutModal : bool;
  notes : TaskManager.Dashboard
}.

(** [handleLogout]; [signedOut] is what awaiting [signOut(auth)] does. The
    second component counts the calls to [signOut]. *)
Definition handleLogout (signedOut : Promise) (ui : UI) : UI * nat :=
  (mkUI (showForm ui) false
     match signedOut with
     | Resolves =>
         showNotification "Logged out successfully" success (notes ui)
     | Rejects _ =>
         showNotification "Failed to logout. Please try again." error (notes ui)
     end,
   1).

(** The [onSubmit] prop given to the form: what the promise it returns
    does, the dashboard afterwards, and the database calls made. *)
Definition onSubmit (user : option useTasks.User) (written : Promise)
    (task : TaskForm.NewTask) (ui : UI)
  : Promise * UI * list useTasks.Call :=
  let '(result, calls) :=
    useTasks.addTask user written (TaskFormInput.to_obj task) in
  match result with
  | useTasks.Returned =>
      (Resolves,
       mkUI false (showLogoutModal ui)
         (showNotification "Task created successfully!" success (notes ui)),
       calls)
  | useTasks.Threw _ =>
      (Resolves,
       mkUI (showForm ui) (showLogoutModal ui)
         (showNotification "Failed to create task. Please try again." error
            (notes ui)),
       calls)
  end.

(** The [onToggle], [onDelete] and [onEdit] props given to the list: like
    [onSubmit], each catches what the repository throws, so the promise it
    returns resolves. *)
Definition onToggle (written : Promise) (id : string) (completed : bool)
    (ui : UI) : Promise * UI * list Repository.Write :=
  let '(result, calls) :=
    Repository.toggleTaskCompletion written id (negb completed) in
  (Resolves,
   mkUI (showForm ui) (showLogoutModal ui)
     match result with
     | useTasks.Returned =>
         showNotification
           (if completed then "Task marked as incomplete" else "Task completed!")
           success (notes ui)
     | useTasks.Threw _ =>
         showNotification "Failed to update task. Please try again." error
           (notes ui)
     end,
   calls).

Definition onDelete (written : Promise) (id : string) (ui : UI)
  : Promise * UI * list Repository.Write :=
  let '(result, calls) := Repository.deleteTask written id in
  (Resolves,
   mkUI (showForm ui) (showLogoutModal ui)
     match result with
     | useTasks.Returned =>
         showNotification "Task deleted successfully!" success (notes ui)
     | useTasks.Threw _ =>
         showNotification "Failed to delete task. Please try again." error
           (notes ui)
     end,
   calls).

Definition onEdit `{objs : TaskObjects} (written : Promise) (id : string)
    (updatedTask : Task.t)
    (ui : UI) : Promise * UI * list Repository.Write :=
  let '(result, calls) :=
    Repository.updateTask written id (task_obj updatedTask) in
  (Resolves,
   mkUI (showForm ui) (showLogoutModal ui)
     match result with
     | useTasks.Returned =>
         showNotification "Task updated successfully!" success (notes ui)
     | useTasks.Threw _ =>
         showNotification "Failed to update task. Please try again." error
           (notes ui)
     end,
   calls).

(** A card's prop call reaches the dashboard's handler of the same name
    (the list passes the three props through). *)
Definition dispatch `{objs : TaskObjects} (written : Promise) (ui : UI)
    (e : TaskCardView.Effect)
  : Promise * UI * list Repository.Write :=
  match e with
  | TaskCardView.onToggle id completed => onToggle written id completed ui
  | TaskCardView.onDelete id => onDelete written id ui
  | TaskCardView.onEdit id updatedTask => onEdit written id updatedTask ui
  end.

(** A card shown in the dashboard: one interaction with the card, the
    card's prop calls going to the dashboard; [written] is what the
    database write does, if one is made. *)
Definition card_event `{objs : TaskObjects} (written : Promise) (task : Task.t)
    (st : TaskCardView.State) (ui : UI) (e : TaskCardView.Event)
  : TaskCardView.State * UI * list Repository.Write :=
  let settled :=
    match e with
    | TaskCardView.ClickSave _ =>
        TaskCardView.ClickSave
          (onEdit written (Task.id task) (TaskCardView.editedTask st) ui).1.1
    | TaskCardView.ConfirmDelete _ =>
        TaskCardView.ConfirmDelete (onDelete written (Task.id task) ui).1.1
    | _ => e
    end in
  let '(st', out) := TaskCardView.step task st settled in
  match out with
  | [] => (st', ui, [])
  | call :: _ =>
      let '(_, ui', writes) := dispatch written ui call in (st', ui', writes)
  end.

(** The create form mounted in the dashboard: a submission of the form
    with the dashboard's [onSubmit] as its callback. *)
Definition submit_form (today : string) (user : option useTasks.User)
    (written : Promise) (form : TaskForm.State) (ui : UI)
  : TaskForm.State * UI * list useTasks.Call :=
  let '(form', submitted) :=
    TaskForm.handleSubmit today (λ task, (onSubmit user written task ui).1.1)
      form in
  match submitted with
  | [] => (form', ui, [])
  | task :: _ =>
      let '(_, ui', calls) := onSubmit user written task ui in
      (form', ui', calls)
  end.

End Dashboard.

(** ** README.md, "Advanced Filtering": the documented chain of filters *)

Module Readme.
Import TaskManager.

Definition filteredTasks (f : Filters) (tasks : list Task.t) : list Task.t :=
  List.filter
    (λ task,
       Js.includes (Js.toLowerCase (Task.title task))
         (Js.toLowerCase (searchQuery f))
       || Js.includes (Js.toLowerCase (Task.description task))
            (Js.toLowerCase (searchQuery f)))
    (List.filter
       (λ task,
          bool_decide (filter f = "all")
          || (bool_decide (filter f = "active") && negb (Task.completed task))
          || (bool_decide (filter f = "completed") && Task.completed task))
       (List.filter
          (λ task,
             bool_decide (priorityFilter f = "all")
             || bool_decide (priority_str (Task.priority task) = priorityFilter f))
          (List.filter
             (λ task,
                bool_decide (categoryFilter f = "all")
                || bool_decide (Task.category task = categoryFilter f))
             tasks))).

End Readme.

(** ** components/TaskList.tsx and what the dashboard renders *)

Module TaskList.

Inductive View := EmptyState | Cards (tasks : list Task.t).

Definition render (tasks : list Task.t) : View :=
  if bool_decide (length tasks = 0) then EmptyState else Cards tasks.

End TaskList.

Module DashboardView.

(** The loading screen, or the page with its error banner (if any) and
    the list of the filtered tasks. *)
Inductive View :=
| Loading
| Page (banner : option string) (list : TaskList.View).

Definition render (st : useTasks.State) (f : TaskManager.Filters) : View :=
  if useTasks.loading st then Loading
  else Page
         match useTasks.error st with
         | Some tasksError => if Js.truthy tasksError then Some tasksError else None
         | None => None
         end
         (TaskList.render (TaskManager.filteredTasks f (useTasks.tasks st))).

End DashboardView.

(** ** Notions used to state the properties *)

(** What holds of the notification cell and the timer queue in every state
    the dashboard can reach. *)
Definition timers_pending (d : TaskManager.Dashboard) : Prop :=
  (∀ due, due ∈ TaskManager.timers d →
          TaskManager.now d < due ≤ TaskManager.now d + 3000)
  ∧ (TaskManager.notification d ≠ None → TaskManager.timers d ≠ []).

(** The type of the notification a dashboard shows, if any. *)
Definition shown_type (ui : Dashboard.UI) : option TaskManager.NotificationType :=
  TaskManager.type <$> TaskManager.notification (Dashboard.notes ui).

(** The query the hook opens for a user. *)
Definition query_of (u : useTasks.User) : useTasks.Query :=
  useTasks.mkQuery "tasks" "userId" (useTasks.uid u).

(** The user the hook last ran its effect for. *)
Fixpoint current_user (u : option useTasks.User) (es : list useTasks.Event)
  : option useTasks.User :=
  match es with
  | [] => u
  | useTasks.UserChanged u' :: es' => current_user u' es'
  | _ :: es' => current_user u es'
  end.

(** The string is empty or starts with a character that is not white. *)
Definition starts_black (s : string) : Prop :=
  match s with
  | EmptyString => True
  | String a _ => Js.is_white a = false
  end.

(** The events of the card's edit form that only change a field. *)
Definition is_change (e : TaskCardView.Event) : Prop :=
  match e with
  | TaskCardView.ChangeTitle _ | TaskCardView.ChangeDescription _
  | TaskCardView.ChangePriority _ | TaskCardView.ChangeDueDate _ => True
  | _ => False
  end.

(* ===================================================================== *)
(** * Part II: properties                                                 *)
(* ===================================================================== *)

(** ** Strings *)

Lemma startsWith_spec s q :
  Js.startsWith s q = true ↔ ∃ r, s = q +:+ r.
Proof.
  revert s. induction q as [|b q IH]; intros s; simpl.
  - destruct s; split; eauto.
  - destruct s as [|a s]; simpl.
    + split; [done | by intros [r ?]].
    + rewrite andb_true_iff, bool_decide_eq_true, IH. split.
      * intros [-> [r ->]]. by exists r.
      * intros [r Hr]. injection Hr as -> ->. eauto.
Qed.

Lemma includes_nil q : Js.includes "" q = Js.startsWith "" q.
Proof. simpl. by rewrite orb_false_r. Qed.

Lemma includes_cons a s q :
  Js.includes (String a s) q = Js.startsWith (String a s) q || Js.includes s q.
Proof. done. Qed.

Lemma includes_spec s q :
  Js.includes s q = true ↔ ∃ p r, s = p +:+ q +:+ r.
Proof.
  induction s as [|a s IH].
  - rewrite includes_nil, startsWith_spec. split.
    + intros [r Hr]. by exists "", r.
    + intros [[|??] [r Hr]]; [by exists r | done].
  - rewrite includes_cons, orb_true_iff, startsWith_spec, IH. split.
    + intros [[r Hr] | (p & r & ->)].
      * by exists "", r.
      * by exists (String a p), r.
    + intros [[|b p] [r Hr]]; simpl in Hr.
      * left. by exists r.
      * right. injection Hr as -> ->. by exists p, r.
Qed.

Example toLowerCase_mixed : Js.toLowerCase "Gym WORKOUT 42!" = "gym workout 42!".
Proof. reflexivity. Qed.

Example trim_both_ends :
  Js.trim (String "009" "  ab c " +:+ String "010" "") = "ab c".
Proof. reflexivity. Qed.

Example trim_blank : Js.trim "   " = "".
Proof. reflexivity. Qed.

Example includes_inner : Js.includes "gym workout" "work" = true.
Proof. reflexivity. Qed.

Example includes_case_sensitive :
  Js.includes "Gym Workout" "Work" = true ∧ Js.includes "Gym Workout" "gym" = false.
Proof. split; reflexivity. Qed.

(** ** The filter combinator *)

Section filter_facts.
Import TaskManager.

Lemma filter_sublist {A} (p : A → bool) (l : list A) :
  List.filter p l `sublist_of` l.
Proof.
  induction l as [|x l IH]; simpl; [done|].
  destruct (p x); by constructor.
Qed.

Lemma filter_idem {A} (p : A → bool) (l : list A) :
  List.filter p (List.filter p l) = List.filter p l.
Proof.
  induction l as [|x l IH]; simpl; [done|].
  destruct (p x) eqn:Hx; simpl; [rewrite Hx; by f_equal | done].
Qed.

Lemma elem_of_filter {A} (p : A → bool) (l : list A) x :
  x ∈ List.filter p l ↔ x ∈ l ∧ p x = true.
Proof. rewrite !list_elem_of_In. apply filter_In. Qed.

(** What the callback decides, branch by branch. *)
Lemma keep_spec f task :
  keep f task = true ↔
    (filter f = "completed" → Task.completed task = true)
    ∧ (filter f = "active" → Task.completed task = false)
    ∧ (categoryFilter f = "all" ∨ Task.category task = categoryFilter f)
    ∧ (priorityFilter f = "all"
       ∨ priority_str (Task.priority task) = priorityFilter f)
    ∧ (searchQuery f = "" ∨ text_match (searchQuery f) task = true).
Proof.
  unfold keep, text_match, Js.truthy.
  repeat case_bool_decide; destruct (Task.completed task); simpl;
    intuition congruence.
Qed.

Lemma Array_filter_alloc cb arr (σ : store) l :
  σ !! arr = Some l →
  ∃ r, Array_filter cb arr σ = Some (r, <[r := List.filter cb l]> σ)
       ∧ σ !! r = None.
Proof.
  intros Hl. unfold Array_filter. rewrite Hl. eexists. split; [done|].
  apply not_elem_of_dom, is_fresh.
Qed.

End filter_facts.

Section filter_claims.
Import TaskManager.

(** C1 (as stated): a task that matches a non-empty query would be in the
    output whatever the status, category and priority filters are. The
    callback tests those three filters first and returns [false] before it
    reaches the search branch: with the category filter on "Work", the
    query "gym" does not bring back a "Personal" task named "Gym Workout". *)
Lemma C1_text_match_does_not_bypass_filters :
  ¬ (∀ (f : Filters) (tasks : list Task.t) (task : Task.t),
       searchQuery f ≠ "" →
       task ∈ tasks →
       text_match (searchQuery f) task = true →
       task ∈ filteredTasks f tasks).
Proof.
  intros H.
  pose (gym := Task.mk "t1" "Gym Workout" "Leg day at the gym" "Personal"
                 low "2025-12-25" false).
  specialize (H (mkFilters "all" "gym" "Work" "all") [gym] gym).
  assert (Hin : gym ∈ filteredTasks (mkFilters "all" "gym" "Work" "all") [gym]).
  { apply H; [done | apply list_elem_of_here | by vm_compute]. }
  vm_compute in Hin. by apply elem_of_nil in Hin.
Qed.

(** C1 (amended): with a non-empty query, a task is in the output exactly
    when it is in the input, passes the status, the category and the
    priority filter, and its lower-cased title or description contains the
    lower-cased query: the text test is one more conjunct. *)
Theorem C1_text_match_is_conjoined (f : Filters) (tasks : list Task.t)
    (task : Task.t) :
  searchQuery f ≠ "" →
  task ∈ filteredTasks f tasks ↔
    task ∈ tasks
    ∧ (filter f = "completed" → Task.completed task = true)
    ∧ (filter f = "active" → Task.completed task = false)
    ∧ (categoryFilter f = "all" ∨ Task.category task = categoryFilter f)
    ∧ (priorityFilter f = "all"
       ∨ priority_str (Task.priority task) = priorityFilter f)
    ∧ (Js.includes (Js.toLowerCase (Task.title task))
         (Js.toLowerCase (searchQuery f)) = true
       ∨ Js.includes (Js.toLowerCase (Task.description task))
           (Js.toLowerCase (searchQuery f)) = true).
Proof.
  intros Hq. unfold filteredTasks.
  rewrite elem_of_filter, keep_spec. unfold text_match.
  rewrite orb_true_iff. intuition congruence.
Qed.

Lemma C1_text_match_is_conjoined_witness :
  let f := mkFilters "all" "GYM" "Personal" "all" in
  let gym := Task.mk "t1" "Gym Workout" "Leg day" "Personal" low "2025-12-25" false in
  let doc := Task.mk "t2" "Doctor" "Check-up" "Personal" low "2025-12-25" false in
  searchQuery f ≠ "" ∧ gym ∈ filteredTasks f [gym; doc].
Proof.
  intros f gym doc. split; [done|].
  apply (C1_text_match_is_conjoined f [gym; doc] gym); [done|].
  repeat split; try done.
  - apply list_elem_of_here.
  - by right.
  - by left.
  - by left.
Defined.

(** C8: the output of the combinator is a subsequence of the input; the
    input array is left as it was (the result is a new array, at a
    location the store did not have); and filtering the output again with
    the same four predicates gives the same elements. *)
Theorem C8_filter_subsequence_frame_idempotent (f : Filters) (tasks : loc)
    (σ : store) (arr : list Task.t) :
  σ !! tasks = Some arr →
  ∃ out σ',
    render_filteredTasks f tasks σ = Some (out, σ')
    ∧ σ' !! out = Some (filteredTasks f arr)
    ∧ filteredTasks f arr `sublist_of` arr
    ∧ out ≠ tasks
    ∧ (∀ l, l ≠ out → σ' !! l = σ !! l)
    ∧ σ' !! tasks = Some arr
    ∧ filteredTasks f (filteredTasks f arr) = filteredTasks f arr
    ∧ ∃ out2 σ2,
        render_filteredTasks f out σ' = Some (out2, σ2)
        ∧ σ2 !! out2 = σ' !! out.
Proof.
  intros Harr. unfold render_filteredTasks.
  destruct (Array_filter_alloc (keep f) tasks σ arr Harr) as (out & Hout & Hfresh).
  assert (Hne : out ≠ tasks) by congruence.
  exists out, (<[out := filteredTasks f arr]> σ).
  split; [exact Hout|].
  split; [apply lookup_insert_eq|].
  split; [apply filter_sublist|].
  split; [exact Hne|].
  split; [by intros l Hl; apply lookup_insert_ne|].
  split; [by rewrite lookup_insert_ne|].
  split; [apply filter_idem|].
  destruct (Array_filter_alloc (keep f) out (<[out := filteredTasks f arr]> σ)
              (filteredTasks f arr)) as (out2 & Hout2 & _);
    [apply lookup_insert_eq|].
  eexists out2, _. split; [exact Hout2|].
  rewrite !lookup_insert_eq. f_equal. apply filter_idem.
Qed.

Lemma C8_filter_subsequence_frame_idempotent_witness :
  let t1 := Task.mk "1" "Buy groceries" "Milk and bread" "Shopping" low "2025-12-25" false in
  let t2 := Task.mk "2" "Write report" "Q4 analysis" "Work" high "2025-12-25" true in
  let f := mkFilters "completed" "" "all" "high" in
  ∃ out σ',
    render_filteredTasks f 1%positive {[ 1%positive := [t1; t2] ]} = Some (out, σ')
    ∧ σ' !! out = Some [t2]
    ∧ σ' !! 1%positive = Some [t1; t2].
Proof.
  intros t1 t2 f.
  destruct (C8_filter_subsequence_frame_idempotent f 1%positive
              {[ 1%positive := [t1; t2] ]} [t1; t2])
    as (out & σ' & H1 & H2 & _ & _ & _ & H6 & _).
  - apply lookup_singleton_eq.
  - exists out, σ'. split; [exact H1|]. split; [exact H2 | exact H6].
Defined.

End filter_claims.

(** ** Notifications *)

Section notification_claims.
Import TaskManager.

Lemma filter_nil_iff {A} (p : A → bool) (l : list A) :
  List.filter p l = [] ↔ ∀ x, x ∈ l → p x = false.
Proof.
  induction l as [|a l IH]; simpl.
  - split; [by intros _ x ?%elem_of_nil | done].
  - destruct (p a) eqn:Ha.
    + split; [done|]. intros H. specialize (H a (list_elem_of_here _ _)). congruence.
    + rewrite IH. split.
      * intros H x [->|Hx]%elem_of_cons; auto.
      * intros H x Hx. apply H. by apply list_elem_of_further.
Qed.

(** After [elapse], the cell keeps its content when no pending timer came
    due, and is empty as soon as one did. *)
Lemma elapse_keeps dt d :
  (∀ due, due ∈ timers d → now d + dt < due) →
  notification (elapse dt d) = notification d.
Proof.
  intros Hall. unfold elapse; simpl.
  assert (List.filter (λ due, due <=? now d + dt) (timers d) = []) as ->; [|done].
  apply filter_nil_iff. intros due Hdue%Hall. apply Nat.leb_gt. lia.
Qed.

Lemma elapse_clears dt d due :
  due ∈ timers d → due ≤ now d + dt →
  notification (elapse dt d) = None.
Proof.
  intros Hin Hle. unfold elapse; simpl.
  destruct (List.filter _ (timers d)) as [|x l] eqn:Hf; [|done].
  rewrite filter_nil_iff in Hf. apply Hf in Hin. apply Nat.leb_gt in Hin. lia.
Qed.

(** A notification is not sure of its own 3 seconds: [showNotification]
    keeps no timer handle and cancels nothing, so the statement "visible
    for 3 seconds unless a newer one replaces it" fails on the code. *)
Lemma not_every_notification_lasts :
  ¬ (∀ (es : list Event) (m : string) (ty : NotificationType) (dt : nat),
       dt < 3000 →
       notification (elapse dt (showNotification m ty (run es)))
       = Some (mkNotification m ty)).
Proof.
  intros H.
  specialize (H [Show "Task created successfully!" success; Elapse 2000]
                "Task deleted successfully!" success 1000).
  assert (1000 < 3000) as Hlt by lia.
  apply H in Hlt. vm_compute in Hlt. discriminate Hlt.
Qed.

(** How long a notification lasts on the code as it is: the dashboard
    holds one notification cell, and showing a notification overwrites it
    (so at most one is visible); every call schedules its own dismissal
    3000 ms later and leaves the pending dismissals of earlier
    notifications in the queue. With no newer notification, the one shown
    at time [t] is still visible [dt] ms later exactly when [dt < 3000] and
    no earlier pending timer has come due by [t + dt]. *)
Lemma notification_lifetime (d : Dashboard) (m : string)
    (ty : NotificationType) (dt : nat) :
  let shown := showNotification m ty d in
  notification shown = Some (mkNotification m ty)
  ∧ timers shown = timers d ++ [now d + 3000]
  ∧ (notification (elapse dt shown) = Some (mkNotification m ty)
     ↔ dt < 3000 ∧ ∀ due, due ∈ timers d → now d + dt < due)
  ∧ (notification (elapse dt shown) = None
     ↔ 3000 ≤ dt ∨ ∃ due, due ∈ timers d ∧ due ≤ now d + dt).
Proof.
  intros shown. split; [done|]. split; [done|].
  destruct (decide (dt < 3000)) as [Hdt|Hdt].
  - destruct (decide (Forall (λ due, now d + dt < due) (timers d)))
      as [Hall|Hex].
    + rewrite Forall_forall in Hall.
      rewrite elapse_keeps; simpl.
      * split; [by split|]. split; [done|].
        intros [? | (due & Hin%Hall & Hle)]; lia.
      * intros due [Hdue%Hall | ->%list_elem_of_singleton]%elem_of_app; lia.
    + apply not_Forall_Exists in Hex; [|apply _].
      apply Exists_exists in Hex as (due & Hin & Hle). simpl in Hle.
      rewrite (elapse_clears dt shown due); simpl.
      * split; [|split; [intros _; right; exists due; split; [done | lia] | done]].
        split; [done|]. intros [_ Hall]. apply Hall in Hin. lia.
      * apply elem_of_app. by left.
      * lia.
  - rewrite (elapse_clears dt shown (now d + 3000)); simpl.
    + split; [|split; intros; [left; lia | done]].
      split; [done | intros [? _]; lia].
    + apply elem_of_app. right. apply list_elem_of_here.
    + lia.
Qed.

(** C2: the code at the input where it departs from the claim and from its
    own comment, "Auto-dismiss after 3 seconds". A notification is shown at
    0 ms and a second one at 2000 ms. The second replaces the first (one
    notification at a time), and both timers are pending, due at 3000 and
    5000 ms: the first was not cancelled. At 3000 ms the first timer runs
    [setNotification(null)] and clears the second notification, one second
    after it was shown. *)
Theorem C2_newer_notification_cleared_by_older_timer :
  let d := run [Show "Task created successfully!" success; Elapse 2000;
                Show "Task deleted successfully!" success] in
  notification d = Some (mkNotification "Task deleted successfully!" success)
  ∧ now d = 2000
  ∧ timers d = [3000; 5000]
  ∧ notification (elapse 999 d)
    = Some (mkNotification "Task deleted successfully!" success)
  ∧ notification (elapse 1000 d) = None.
Proof. repeat split; reflexivity. Qed.

End notification_claims.

(** ** Task validation *)

Section validation_claims.

Lemma no_keys_spec (o : Errors) : no_keys o = true ↔ o = ∅.
Proof. unfold no_keys. rewrite bool_decide_eq_true. apply map_size_empty_iff. Qed.

(** One field's check: the entry is added exactly when the value is shorter
    than [n] (the empty value included). *)
Lemma field_check (k required short v : string) (n : nat) (o : Errors) :
  0 < n →
  (if negb (Js.truthy v) then <[k := required]> o
   else if String.length v <? n then <[k := short]> o else o)
  = (if String.length v <? n
     then <[k := if bool_decide (v = "") then required else short]> o
     else o).
Proof.
  intros Hn. unfold Js.truthy. rewrite negb_involutive.
  case_bool_decide as Hv.
  - subst v. simpl. destruct n; [lia | done].
  - done.
Qed.

Ltac nonempty_insert :=
  match goal with
  | H : <[_ := _]> _ = ∅ |- _ => by apply insert_non_empty in H
  end.

Lemma validateTask_accepts (T : Task.t) :
  (TaskCard.validateTask T).2 = true ↔
    3 ≤ String.length (Js.trim (Task.title T))
    ∧ 10 ≤ String.length (Js.trim (Task.description T)).
Proof.
  unfold TaskCard.validateTask; simpl.
  rewrite no_keys_spec, !field_check by lia.
  destruct (Nat.ltb_spec (String.length (Js.trim (Task.title T))) 3);
    destruct (Nat.ltb_spec (String.length (Js.trim (Task.description T))) 10);
    (split; [intros ?; try nonempty_insert | intros [??]; try lia]); done.
Qed.

Lemma validateForm_accepts (st : TaskForm.State) :
  (TaskForm.validateForm st).2 = true ↔
    3 ≤ String.length (Js.trim (TaskForm.title st))
    ∧ 10 ≤ String.length (Js.trim (TaskForm.description st))
    ∧ TaskForm.dueDate st ≠ "".
Proof.
  unfold TaskForm.validateForm; simpl.
  rewrite no_keys_spec, !field_check by lia.
  unfold Js.truthy. rewrite negb_involutive.
  destruct (Nat.ltb_spec (String.length (Js.trim (TaskForm.title st))) 3);
    destruct (Nat.ltb_spec (String.length (Js.trim (TaskForm.description st))) 10);
    case_bool_decide;
    (split; [intros ?; try nonempty_insert | intros (? & ? & ?); try lia]); done.
Qed.

(** C3 (as stated): both validations would accept exactly when the trimmed
    title has at least 3 and the trimmed description at least 10
    characters. The create form also requires a due date: with the date
    input cleared, a long enough title and description are rejected. *)
Lemma C3_create_form_rejects_empty_due_date :
  ¬ ((∀ T : Task.t,
        (TaskCard.validateTask T).2 = true ↔
          3 ≤ String.length (Js.trim (Task.title T))
          ∧ 10 ≤ String.length (Js.trim (Task.description T)))
     ∧ (∀ st : TaskForm.State,
          (TaskForm.validateForm st).2 = true ↔
            3 ≤ String.length (Js.trim (TaskForm.title st))
            ∧ 10 ≤ String.length (Js.trim (TaskForm.description st)))).
Proof.
  intros [_ H].
  specialize (H (TaskForm.mkState "New Task" "A valid description" "Work"
                   high "" ∅ false)).
  destruct H as [_ H].
  assert ((TaskForm.validateForm
             (TaskForm.mkState "New Task" "A valid description" "Work"
                high "" ∅ false)).2 = true) as Hacc.
  { apply H. vm_compute. split; lia. }
  apply validateForm_accepts in Hacc as (_ & _ & Hdue). by apply Hdue.
Qed.

(** C3 (amended): the edit-mode validation accepts exactly when the trimmed
    title has at least 3 and the trimmed description at least 10
    characters; the create-form validation accepts exactly when, in
    addition, the due date is not empty. *)
Theorem C3_validation_accepts_iff (T : Task.t) (st : TaskForm.State) :
  ((TaskCard.validateTask T).2 = true ↔
     3 ≤ String.length (Js.trim (Task.title T))
     ∧ 10 ≤ String.length (Js.trim (Task.description T)))
  ∧ ((TaskForm.validateForm st).2 = true ↔
       3 ≤ String.length (Js.trim (TaskForm.title st))
       ∧ 10 ≤ String.length (Js.trim (TaskForm.description st))
       ∧ TaskForm.dueDate st ≠ "").
Proof. split; [apply validateTask_accepts | apply validateForm_accepts]. Qed.

End validation_claims.

(** ** Registration and login *)

Section auth_claims.

Lemma includes_true s q : Js.includes s q = true ↔ contains s q.
Proof. apply includes_spec. Qed.

Lemma includes_false s q : Js.includes s q = false ↔ ¬ contains s q.
Proof. rewrite <- includes_true. by destruct (Js.includes s q). Qed.

(** C4: a registration whose password differs from the confirmation ends
    with the message "Passwords do not match" and without any call; one
    whose password equals the confirmation but is shorter than 6 characters
    ends with "Password must be at least 6 characters long" and without any
    call; the sign-up call is made only when both checks pass, and then it
    is made, with the e-mail and password of the form. *)
Theorem C4_register_checks_before_sign_up
    (signUp : string → string → Promise) (st : Register.State) :
  (Register.password st ≠ Register.confirmPassword st →
     Register.error (Register.handleSubmit signUp st).1
       = Some "Passwords do not match"
     ∧ (Register.handleSubmit signUp st).2 = [])
  ∧ (Register.password st = Register.confirmPassword st →
     String.length (Register.password st) < 6 →
     Register.error (Register.handleSubmit signUp st).1
       = Some "Password must be at least 6 characters long"
     ∧ (Register.handleSubmit signUp st).2 = [])
  ∧ (∀ e p,
       Register.createUserWithEmailAndPassword e p
         ∈ (Register.handleSubmit signUp st).2 →
       Register.password st = Register.confirmPassword st
       ∧ 6 ≤ String.length (Register.password st))
  ∧ (Register.password st = Register.confirmPassword st →
     6 ≤ String.length (Register.password st) →
     Register.createUserWithEmailAndPassword
       (Register.email st) (Register.password st)
       ∈ (Register.handleSubmit signUp st).2).
Proof.
  unfold Register.handleSubmit.
  case_bool_decide as Heq; simpl.
  - destruct (Nat.ltb_spec (String.length (Register.password st)) 6) as [Hlt|Hge];
      simpl.
    + split; [done|]. split; [done|].
      split; [by intros e p ?%elem_of_nil | intros; lia].
    + split; [done|]. split; [intros; lia|]. split; [done|].
      intros _ _. destruct (signUp _ _) as [|[m|]]; apply list_elem_of_here.
  - split; [done|]. split; [done|].
    split; [by intros e p ?%elem_of_nil | done].
Qed.

Lemma C4_register_checks_before_sign_up_witness :
  let weak := Register.mkState "a@b.c" "weak" "weak" None None false in
  let diff := Register.mkState "a@b.c" "password123" "different123" None None false in
  (Register.error (Register.handleSubmit (λ _ _, Resolves) weak).1
     = Some "Password must be at least 6 characters long"
   ∧ (Register.handleSubmit (λ _ _, Resolves) weak).2 = [])
  ∧ (Register.error (Register.handleSubmit (λ _ _, Resolves) diff).1
       = Some "Passwords do not match"
     ∧ (Register.handleSubmit (λ _ _, Resolves) diff).2 = []).
Proof.
  intros weak diff. split.
  - apply (C4_register_checks_before_sign_up (λ _ _, Resolves) weak);
      [reflexivity | simpl; lia].
  - apply (C4_register_checks_before_sign_up (λ _ _, Resolves) diff).
    simpl. discriminate.
Defined.

(** C7: when signing in is rejected with an [Error] carrying [message], the
    login form shows the fixed text "Invalid email or password. Please try
    again." if the message names a credential failure (invalid-credential,
    user-not-found or wrong-password); otherwise the fixed text "Too many
    failed attempts. Please try again later." if it names too-many-requests;
    otherwise the message itself, unchanged. When signing up is rejected
    with such an error, the registration form shows the message itself. *)
Theorem C7_identity_service_messages
    (signIn signUp : string → string → Promise)
    (stL : Login.State) (stR : Register.State) (message : string) :
  let credential :=
    contains message "invalid-credential"
    ∨ contains message "user-not-found"
    ∨ contains message "wrong-password" in
  let rate_limit := contains message "too-many-requests" in
  (signIn (Login.email stL) (Login.password stL) = Rejects (ErrorObj message) →
     (credential →
        Login.error (Login.handleSubmit signIn stL).1
          = Some "Invalid email or password. Please try again.")
     ∧ (¬ credential → rate_limit →
        Login.error (Login.handleSubmit signIn stL).1
          = Some "Too many failed attempts. Please try again later.")
     ∧ (¬ credential → ¬ rate_limit →
        Login.error (Login.handleSubmit signIn stL).1 = Some message))
  ∧ (signUp (Register.email stR) (Register.password stR)
       = Rejects (ErrorObj message) →
     Register.createUserWithEmailAndPassword
       (Register.email stR) (Register.password stR)
       ∈ (Register.handleSubmit signUp stR).2 →
     Register.error (Register.handleSubmit signUp stR).1 = Some message).
Proof.
  intros credential rate_limit. split.
  - intros Hrej. unfold Login.handleSubmit. rewrite Hrej; simpl.
    unfold Login.errorMessage.
    assert (Hc : credential ↔
              Js.includes message "invalid-credential"
              || Js.includes message "user-not-found"
              || Js.includes message "wrong-password" = true).
    { unfold credential. rewrite !orb_true_iff, !includes_true. tauto. }
    assert (Hr : rate_limit ↔ Js.includes message "too-many-requests" = true).
    { unfold rate_limit. by rewrite includes_true. }
    destruct (_ || _ || _); destruct (Js.includes message "too-many-requests");
      intuition congruence.
  - intros Hrej. unfold Register.handleSubmit.
    case_bool_decide; simpl; [|by intros ?%elem_of_nil].
    destruct (_ <? _); simpl; [by intros ?%elem_of_nil|].
    by rewrite Hrej.
Qed.

Lemma C7_identity_service_messages_witness :
  let stL := Login.mkState "test@example.com" "wrongpassword" None false in
  let stR := Register.mkState "existing@example.com" "password123" "password123"
               None None false in
  Login.error
    (Login.handleSubmit
       (λ _ _, Rejects (ErrorObj "Firebase: Error (auth/too-many-requests)")) stL).1
    = Some "Too many failed attempts. Please try again later."
  ∧ Register.error
      (Register.handleSubmit
         (λ _ _, Rejects (ErrorObj "Firebase: Error (auth/email-already-in-use)")) stR).1
    = Some "Firebase: Error (auth/email-already-in-use)".
Proof.
  intros stL stR. split.
  - apply (C7_identity_service_messages
             (λ _ _, Rejects (ErrorObj "Firebase: Error (auth/too-many-requests)"))
             (λ _ _, Resolves) stL stR
             "Firebase: Error (auth/too-many-requests)"); [reflexivity | |].
    + rewrite <- !includes_true. vm_compute. intuition discriminate.
    + apply includes_true. reflexivity.
  - apply (C7_identity_service_messages (λ _ _, Resolves)
             (λ _ _, Rejects (ErrorObj "Firebase: Error (auth/email-already-in-use)"))
             stL stR "Firebase: Error (auth/email-already-in-use)");
      [reflexivity | apply list_elem_of_here].
Defined.

End auth_claims.

(** ** The task repository hook *)

Section repository_claims.
Import useTasks.

(** Listener callbacks for which no listener is registered change nothing
    and call nothing. *)
Lemma idle_listener (st : State) (es : list Event) :
  cleanup st = None →
  Forall (λ e, match e with UserChanged _ => False | _ => True end) es →
  run_hook st es = (st, []).
Proof.
  intros Hc Hes. induction Hes as [|e es He _ IH]; simpl; [done|].
  destruct e as [?|?|]; [done| |]; simpl; by rewrite Hc, IH.
Qed.

(** C5: when the hook runs with no user (on mount, or when the user
    becomes null) it sets [tasks] to the empty list and [loading] to false
    and opens no live query; and whatever listener callbacks are delivered
    afterwards, this stays so until the user changes again. *)
Theorem C5_no_user_no_subscription (st : State) (es : list Event) :
  Forall (λ e, match e with UserChanged _ => False | _ => True end) es →
  effect None st = (mkState [] false (error st) None, [])
  ∧ tasks (user_changed None st).1 = []
  ∧ loading (user_changed None st).1 = false
  ∧ List.filter is_subscription (user_changed None st).2 = []
  ∧ tasks (run_hook st (UserChanged None :: es)).1 = []
  ∧ loading (run_hook st (UserChanged None :: es)).1 = false
  ∧ List.filter is_subscription (run_hook st (UserChanged None :: es)).2 = [].
Proof.
  intros Hes. split; [done|].
  assert (Hu : List.filter is_subscription (user_changed None st).2 = []).
  { unfold user_changed; simpl. by destruct (cleanup st). }
  split; [done|]. split; [done|]. split; [exact Hu|].
  cbn [run_hook step].
  destruct (user_changed None st) as [st1 calls1] eqn:Huc.
  assert (Hst1 : st1 = mkState [] false (error st) None).
  { unfold user_changed in Huc; simpl in Huc. by injection Huc as <- _. }
  rewrite (idle_listener st1 es); [|by subst st1|done].
  simpl in *. rewrite app_nil_r. by subst st1.
Qed.

Lemma C5_no_user_no_subscription_witness :
  let t := Task.mk "t1" "Task A" "Desc" "General" medium "2025-01-01" false in
  let st := mkState [t] true None (Some (mkQuery "tasks" "userId" "u1")) in
  tasks (run_hook st [UserChanged None; Snapshot [t]; SnapshotError]).1 = []
  ∧ loading (run_hook st [UserChanged None; Snapshot [t]; SnapshotError]).1 = false.
Proof.
  intros t st.
  destruct (C5_no_user_no_subscription st [Snapshot [t]; SnapshotError])
    as (_ & _ & _ & _ & Ht & Hl & _).
  - repeat constructor.
  - split; [exact Ht | exact Hl].
Defined.

(** C6: without a user, [addTask] throws "User not authenticated" and
    writes nothing. With a user it submits one record to the "tasks"
    collection: the caller's fields, with [completed] set to false and
    [userId] set to the user's identifier, whatever the caller supplied
    under these two names. *)
Theorem C6_addTask_guard_and_merge (written : Promise)
    (task : gmap string Value) (u : User) :
  addTask None written task = (Threw "User not authenticated", [])
  ∧ ∃ data,
      (addTask (Some u) written task).2 = [addDoc "tasks" data]
      ∧ data !! "completed" = Some (VBool false)
      ∧ data !! "userId" = Some (VStr (uid u))
      ∧ (∀ k, k ≠ "completed" → k ≠ "userId" → data !! k = task !! k)
      ∧ dom data = {[ "userId" ]} ∪ ({[ "completed" ]} ∪ dom task).
Proof.
  split; [done|]. eexists. split; [done|].
  split; [by rewrite lookup_insert_ne, lookup_insert_eq|].
  split; [by rewrite lookup_insert_eq|].
  split; [by intros k ??; rewrite !lookup_insert_ne|].
  by rewrite !dom_insert_L.
Qed.

(** C10: when the user becomes null the hook sets [tasks] to the empty list
    and [loading] to false and leaves [error] as it was (on the effect's
    body and on its run with the previous cleanup); running the effect with
    a user sets [error] to null and opens the live query, and among all
    events of the hook only that one can turn a set [error] back to null.
    After a load failure, signing out empties the tasks a snapshot had
    delivered and keeps the failure's message. *)
Theorem C10_error_survives_sign_out (st : State) (u : User)
    (ts : list Task.t) :
  (tasks (effect None st).1 = []
   ∧ loading (effect None st).1 = false
   ∧ error (effect None st).1 = error st)
  ∧ (tasks (user_changed None st).1 = []
     ∧ loading (user_changed None st).1 = false
     ∧ error (user_changed None st).1 = error st)
  ∧ (error (user_changed (Some u) st).1 = None
     ∧ onSnapshot (mkQuery "tasks" "userId" (uid u))
         ∈ (user_changed (Some u) st).2)
  ∧ (∀ e, error st ≠ None → error (step st e).1 = None →
          ∃ u', e = UserChanged (Some u'))
  ∧ (let before :=
       (run_hook initial
          [UserChanged None; UserChanged (Some u); Snapshot ts; SnapshotError]).1 in
     let after :=
       (run_hook initial
          [UserChanged None; UserChanged (Some u); Snapshot ts; SnapshotError;
           UserChanged None]).1 in
     tasks before = ts
     ∧ error before = Some "Failed to load tasks. Please refresh the page."
     ∧ tasks after = []
     ∧ loading after = false
     ∧ error after = Some "Failed to load tasks. Please refresh the page.").
Proof.
  split; [done|]. split; [done|]. split.
  { split; [done|]. unfold user_changed; simpl.
    apply elem_of_app. right. apply list_elem_of_here. }
  split; [|done].
  intros [[u'|]|tasksData|] Hset Hnull; simpl in Hnull.
  - by exists u'.
  - done.
  - by destruct (cleanup st).
  - by destruct (cleanup st).
Qed.

End repository_claims.

(** ** The create form *)

Section form_claims.
Import TaskForm.

(** C9: a submission that passes validation calls [onSubmit] once, with the
    trimmed title and description and the other fields as entered. If the
    callback resolves, the form is back to its defaults (empty title and
    description, "Personal", medium, the current date) with no validation
    error; if it rejects, title, description, category, priority and due
    date are those the user entered. *)
Theorem C9_form_reset_only_on_success (today : string)
    (onSubmit : NewTask → Promise) (st : State) :
  (validateForm st).2 = true →
  let task := mkNewTask (Js.trim (title st)) (Js.trim (description st))
                (category st) (priority st) (dueDate st) in
  let st' := (handleSubmit today onSubmit st).1 in
  (handleSubmit today onSubmit st).2 = [task]
  ∧ (onSubmit task = Resolves →
     st' = mkState "" "" "Personal" medium today ∅ false)
  ∧ (∀ err, onSubmit task = Rejects err →
     title st' = title st
     ∧ description st' = description st
     ∧ category st' = category st
     ∧ priority st' = priority st
     ∧ dueDate st' = dueDate st
     ∧ isSubmitting st' = false).
Proof.
  intros Hvalid task st'. subst st'. unfold handleSubmit.
  destruct (validateForm st) as [newErrors valid]. simpl in Hvalid. subst valid.
  simpl. fold task. destruct (onSubmit task) as [|err]; simpl.
  - split; [done|]. split; [done|]. by intros.
  - split; [done|]. split; [done|]. by intros.
Qed.

Lemma C9_form_reset_only_on_success_witness :
  let st := mkState " New Task " "This is a brand new valid task description"
              "Work" high "2025-12-31" ∅ false in
  (handleSubmit "2026-01-15" (λ _, Resolves) st).2
    = [mkNewTask "New Task" "This is a brand new valid task description"
         "Work" high "2025-12-31"]
  ∧ title (handleSubmit "2026-01-15" (λ _, Rejects NotAnError) st).1 = " New Task ".
Proof.
  intros st. split.
  - apply (C9_form_reset_only_on_success "2026-01-15" (λ _, Resolves) st).
    by vm_compute.
  - refine (proj1 (proj2 (proj2
      (C9_form_reset_only_on_success "2026-01-15" (λ _, Rejects NotAnError) st _))
      NotAnError eq_refl)).
    by vm_compute.
Defined.

End form_claims.

(** ** The repository's unit tests, replayed on the model *)

Section unit_tests.

(** TaskManager.test: "filters tasks by search query". *)
Example test_filters_by_search_query :
  let t1 := Task.mk "1" "Buy groceries" "Milk and bread" "Personal" medium
              "2025-12-25" false in
  let t2 := Task.mk "2" "Write report" "Q4 analysis" "Personal" medium
              "2025-12-25" false in
  TaskManager.filteredTasks (TaskManager.mkFilters "all" "groceries" "all" "all")
    [t1; t2] = [t1].
Proof. reflexivity. Qed.

(** TaskForm.test: "validates required fields and shows error messages". *)
Example test_form_error_messages :
  (TaskForm.validateForm (TaskForm.initial "2025-12-25")).1
    = {[ "title" := "Title is required";
         "description" := "Description is required" ]}
  ∧ (TaskForm.validateForm
       (TaskForm.mkState "ab" "too short" "Personal" medium "2025-12-25" ∅ false)).1
    = {[ "title" := "Title must be at least 3 characters";
         "description" := "Description must be at least 10 characters" ]}.
Proof. split; apply insert_insert_ne; done. Qed.

(** Login.test: invalid credentials and too many attempts. *)
Example test_login_friendly_messages :
  Login.errorMessage "Firebase: Error (auth/invalid-credential)"
    = "Invalid email or password. Please try again."
  ∧ Login.errorMessage "Firebase: Error (auth/too-many-requests)"
    = "Too many failed attempts. Please try again later."
  ∧ Login.errorMessage "Firebase: Error (auth/network-request-failed)"
    = "Firebase: Error (auth/network-request-failed)".
Proof. repeat split; reflexivity. Qed.

(** useTasks.test: "sets error when snapshot listener errors". *)
Example test_snapshot_error :
  let st := (useTasks.run_hook useTasks.initial
               [useTasks.UserChanged (Some (useTasks.mkUser "u1"));
                useTasks.SnapshotError]).1 in
  useTasks.loading st = false
  ∧ useTasks.error st = Some "Failed to load tasks. Please refresh the page."
  ∧ useTasks.tasks st = [].
Proof. repeat split; reflexivity. Qed.

(** useTasks.test: "addTask writes new task with defaults and userId". *)
Example test_addTask_payload :
  let task : gmap string useTasks.Value :=
    {[ "title" := useTasks.VStr "New"; "priority" := useTasks.VStr "high" ]} in
  ∃ data,
    useTasks.addTask (Some (useTasks.mkUser "u1")) Resolves task
      = (useTasks.Returned, [useTasks.addDoc "tasks" data])
    ∧ data !! "title" = Some (useTasks.VStr "New")
    ∧ data !! "completed" = Some (useTasks.VBool false)
    ∧ data !! "userId" = Some (useTasks.VStr "u1").
Proof. eexists. split; [reflexivity|]. repeat split; reflexivity. Qed.

End unit_tests.

(* ===================================================================== *)
(** * Part III: further properties of the code                            *)
(* ===================================================================== *)

(** ** Strings *)

Lemma lower_char_idem a : Js.lower_char (Js.lower_char a) = Js.lower_char a.
Proof. by destruct a as [[] [] [] [] [] [] [] []]. Qed.

Lemma toLowerCase_idem s : Js.toLowerCase (Js.toLowerCase s) = Js.toLowerCase s.
Proof. induction s as [|a s IH]; simpl; [done|]. by rewrite lower_char_idem, IH. Qed.

Lemma toLowerCase_empty_iff s : Js.toLowerCase s = "" ↔ s = "".
Proof. by destruct s. Qed.

Lemma startsWith_empty s : Js.startsWith s "" = true.
Proof. by destruct s. Qed.

Lemma includes_empty s : Js.includes s "" = true.
Proof. apply includes_spec. by exists "", s. Qed.

(** ** The filter combinator, continued *)

Section filter_more.
Import TaskManager.

Lemma filter_filter {A} (p q : A → bool) (l : list A) :
  List.filter p (List.filter q l) = List.filter (λ x, q x && p x) l.
Proof.
  induction l as [|x l IH]; simpl; [done|].
  destruct (q x); simpl; [destruct (p x)|]; by rewrite IH.
Qed.

Lemma filter_all {A} (p : A → bool) (l : list A) :
  (∀ x, x ∈ l → p x = true) → List.filter p l = l.
Proof.
  induction l as [|x l IH]; simpl; [done|]. intros H.
  rewrite (H x) by apply list_elem_of_here. f_equal.
  apply IH. intros y Hy. apply H. by apply list_elem_of_further.
Qed.

(** The callback under a status filter, in terms of the callback without. *)
Lemma keep_status s q c p task :
  keep (mkFilters s q c p) task =
    (negb (bool_decide (s = "completed")) || Task.completed task)
    && (negb (bool_decide (s = "active")) || negb (Task.completed task))
    && keep (mkFilters "all" q c p) task.
Proof.
  unfold keep; simpl.
  do 2 case_bool_decide; destruct (Task.completed task); done.
Qed.

(** X1: when the status filter is neither "completed" nor "active", the
    category and priority filters are "all" and the search box is empty
    (the state of a fresh dashboard), every task is shown, in order. *)
Theorem X1_no_filter_shows_everything (f : Filters) (tasks : list Task.t) :
  filter f ≠ "completed" → filter f ≠ "active" →
  categoryFilter f = "all" → priorityFilter f = "all" →
  searchQuery f = "" →
  filteredTasks f tasks = tasks.
Proof.
  intros Hc Ha Hcat Hprio Hq. apply filter_all. intros task _.
  apply keep_spec. rewrite Hcat, Hprio, Hq. by repeat split; auto.
Qed.

Lemma X1_no_filter_shows_everything_witness :
  let t1 := Task.mk "1" "Buy groceries" "Milk and bread" "Shopping" low "2025-12-25" false in
  let t2 := Task.mk "2" "Write report" "Q4 analysis" "Work" high "2025-12-25" true in
  filteredTasks (mkFilters "all" "" "all" "all") [t1; t2] = [t1; t2].
Proof.
  intros t1 t2.
  by apply (X1_no_filter_shows_everything (mkFilters "all" "" "all" "all") [t1; t2]).
Defined.

(** The callback as one conjunction. *)
Lemma keep_bool f task :
  keep f task =
    (negb (bool_decide (filter f = "completed")) || Task.completed task)
    && (negb (bool_decide (filter f = "active")) || negb (Task.completed task))
    && (bool_decide (categoryFilter f = "all")
        || bool_decide (Task.category task = categoryFilter f))
    && (bool_decide (priorityFilter f = "all")
        || bool_decide (priority_str (Task.priority task) = priorityFilter f))
    && (negb (Js.truthy (searchQuery f)) || text_match (searchQuery f) task).
Proof.
  unfold keep, text_match.
  destruct (Js.truthy (searchQuery f));
    repeat case_bool_decide; destruct (Task.completed task); simpl;
      by rewrite ?andb_true_r.
Qed.

Lemma status_bool (s : string) (c : bool) :
  s = "all" ∨ s = "active" ∨ s = "completed" →
  (negb (bool_decide (s = "completed")) || c)
  && (negb (bool_decide (s = "active")) || negb c)
  = bool_decide (s = "all")
    || (bool_decide (s = "active") && negb c)
    || (bool_decide (s = "completed") && c).
Proof. intros [-> | [-> | ->]]; destruct c; by vm_compute. Qed.

Lemma text_bool q task :
  negb (Js.truthy q) || text_match q task = text_match q task.
Proof.
  unfold Js.truthy, text_match. case_bool_decide as Hq; simpl; [|done].
  subst q. change (Js.toLowerCase "") with "". by rewrite !includes_empty.
Qed.

(** X2: for the three status values the dashboard offers, the combinator
    computes what the README documents: the chain of a category, a
    priority, a status and a text filter. *)
Theorem X2_filter_agrees_with_readme (f : Filters) (tasks : list Task.t) :
  filter f = "all" ∨ filter f = "active" ∨ filter f = "completed" →
  filteredTasks f tasks = Readme.filteredTasks f tasks.
Proof.
  intros Hstatus. unfold filteredTasks, Readme.filteredTasks.
  rewrite !filter_filter. apply filter_ext. intros task.
  rewrite keep_bool, (status_bool _ _ Hstatus), text_bool. unfold text_match.
  repeat match goal with |- context [bool_decide ?P] =>
    generalize (bool_decide P); intros ? end.
  repeat match goal with |- context [Js.includes ?a ?b] =>
    generalize (Js.includes a b); intros ? end.
  repeat match goal with b : bool |- _ => destruct b end;
    destruct (Task.completed task); reflexivity.
Qed.

Lemma X2_filter_agrees_with_readme_witness :
  let t1 := Task.mk "1" "Work Meeting" "Weekly sync" "Work" high "2025-12-25" false in
  let t2 := Task.mk "2" "Project Review" "Quarterly" "Work" high "2025-12-25" true in
  Readme.filteredTasks (mkFilters "active" "MEETING" "Work" "high") [t1; t2] = [t1].
Proof.
  intros t1 t2.
  rewrite <- (X2_filter_agrees_with_readme
                (mkFilters "active" "MEETING" "Work" "high") [t1; t2]).
  - reflexivity.
  - right. left. reflexivity.
Defined.

(** X3: with the other three filters fixed, the "active" view is the
    not-completed part of the "all" view and the "completed" view is its
    completed part, both in the same order: the two views share no task and
    together hold as many tasks as the "all" view. *)
Theorem X3_status_views_split_all (q c p : string) (tasks : list Task.t) :
  let all := filteredTasks (mkFilters "all" q c p) tasks in
  let active := filteredTasks (mkFilters "active" q c p) tasks in
  let done := filteredTasks (mkFilters "completed" q c p) tasks in
  active = List.filter (λ t, negb (Task.completed t)) all
  ∧ done = List.filter Task.completed all
  ∧ active ++ done ≡ₚ all
  ∧ ∀ t, t ∈ active → t ∉ done.
Proof.
  intros all active done.
  assert (Ha : active = List.filter (λ t, negb (Task.completed t)) all).
  { unfold active, all, filteredTasks. rewrite filter_filter.
    apply filter_ext. intros t. rewrite keep_status; simpl.
    by rewrite andb_comm. }
  assert (Hd : done = List.filter Task.completed all).
  { unfold done, all, filteredTasks. rewrite filter_filter.
    apply filter_ext. intros t. rewrite keep_status; simpl.
    by rewrite andb_true_r, andb_comm. }
  split; [exact Ha|]. split; [exact Hd|]. split.
  - rewrite Ha, Hd. clear. induction all as [|t l IH]; simpl; [done|].
    destruct (Task.completed t); simpl.
    + rewrite <- Permutation_middle. by constructor.
    + by constructor.
  - intros t. rewrite Ha, Hd, !elem_of_filter.
    intros [_ H1] [_ H2]. rewrite H2 in H1. discriminate.
Qed.

(** X4: the search is insensitive to the case of the query: two queries
    with the same lower-case form select the same tasks, so a query and
    its lower-case form do. *)
Theorem X4_query_case_is_irrelevant (s q q' c p : string)
    (tasks : list Task.t) :
  Js.toLowerCase q = Js.toLowerCase q' →
  filteredTasks (mkFilters s q c p) tasks
  = filteredTasks (mkFilters s q' c p) tasks.
Proof.
  intros Hq. apply filter_ext. intros task. unfold keep, Js.truthy; simpl.
  rewrite Hq.
  replace (bool_decide (q = "")) with (bool_decide (q' = "")); [done|].
  apply bool_decide_ext.
  by rewrite <- (toLowerCase_empty_iff q), <- (toLowerCase_empty_iff q'), Hq.
Qed.

Lemma X4_query_case_is_irrelevant_witness :
  let gym := Task.mk "1" "Gym Workout" "Leg day" "Personal" low "2025-12-25" false in
  filteredTasks (mkFilters "all" "GyM w" "all" "all") [gym]
  = filteredTasks (mkFilters "all" "gym W" "all" "all") [gym].
Proof.
  intros gym.
  by apply (X4_query_case_is_irrelevant "all" "GyM w" "gym W" "all" "all" [gym]).
Defined.

End filter_more.

(** ** Notifications, continued *)

Section notification_more.
Import TaskManager.

Lemma timers_pending_step d e : timers_pending d → timers_pending (step d e).
Proof.
  intros [Hdue Hvis]. destruct e as [m ty|dt]; simpl.
  - split; simpl.
    + intros due [Hin%Hdue | ->%list_elem_of_singleton]%elem_of_app; lia.
    + intros _. by destruct (timers d).
  - split; simpl.
    + intros due [Hin%Hdue Hlate]%elem_of_filter.
      apply negb_true_iff, Nat.leb_gt in Hlate. lia.
    + destruct (List.filter (λ due, due <=? now d + dt) (timers d)) eqn:Hf;
        [|done].
      intros Hn%Hvis. rewrite filter_all; [done|].
      intros due Hin. rewrite filter_nil_iff in Hf. by rewrite (Hf due Hin).
Qed.

Lemma run_snoc es e : run (es ++ [e]) = step (run es) e.
Proof. unfold run. by rewrite fold_left_app. Qed.

Lemma timers_pending_run es : timers_pending (run es).
Proof.
  induction es as [|e es IH] using rev_ind.
  - split; simpl; [by intros due ?%elem_of_nil | done].
  - rewrite run_snoc. by apply timers_pending_step.
Qed.

(** X5: whatever notifications were shown and however time passed, every
    pending dismissal is due within the next 3000 ms, and a visible
    notification always has a dismissal pending: 3000 ms of quiet later
    nothing is visible and no timer is left. *)
Theorem X5_notifications_never_stick (es : list Event) :
  let d := run es in
  (∀ due, due ∈ timers d → now d < due ≤ now d + 3000)
  ∧ (notification d ≠ None → timers d ≠ [])
  ∧ notification (elapse 3000 d) = None
  ∧ timers (elapse 3000 d) = [].
Proof.
  intros d. destruct (timers_pending_run es) as [Hdue Hvis].
  fold d in Hdue, Hvis. clearbody d.
  split; [exact Hdue|]. split; [exact Hvis|]. split.
  - destruct (timers d) as [|due l] eqn:Ht.
    + rewrite elapse_keeps; [|rewrite Ht; by intros ? ?%elem_of_nil].
      destruct (notification d); [|done]. by destruct Hvis.
    + apply (elapse_clears 3000 d due); [rewrite Ht; apply list_elem_of_here|].
      apply Hdue, list_elem_of_here.
  - simpl. apply filter_nil_iff. intros due Hin%Hdue.
    apply negb_false_iff, Nat.leb_le. lia.
Qed.

End notification_more.

(** ** The task repository hook, continued *)

Section repository_more.
Import useTasks.

Lemma run_hook_app st es1 es2 :
  run_hook st (es1 ++ es2) =
    let '(st1, calls1) := run_hook st es1 in
    let '(st2, calls2) := run_hook st1 es2 in
    (st2, calls1 ++ calls2).
Proof.
  revert st. induction es1 as [|e es1 IH]; intros st; simpl.
  - by destruct (run_hook st es2).
  - destruct (step st e) as [st1 c1]. rewrite IH.
    destruct (run_hook st1 es1) as [st2 c2].
    destruct (run_hook st2 es2) as [st3 c3]. by rewrite app_assoc.
Qed.

Lemma listeners_app active calls1 calls2 :
  Repository.listeners active (calls1 ++ calls2)
  = Repository.listeners (Repository.listeners active calls1) calls2.
Proof.
  revert active. induction calls1 as [|[q|q|c d] calls1 IH]; intros active;
    simpl; by rewrite ?IH.
Qed.

Lemma single_listener_from st u es :
  cleanup st = query_of <$> u →
  let '(st', calls) := run_hook st es in
  cleanup st' = query_of <$> current_user u es
  ∧ Repository.listeners (option_list (cleanup st)) calls
    = option_list (cleanup st').
Proof.
  revert st u. induction es as [|e es IH]; intros st u Hst; simpl; [done|].
  destruct e as [u'|tasksData|]; simpl.
  - unfold user_changed.
    destruct (effect u' st) as [st1 c1] eqn:Heff.
    specialize (IH st1 u').
    destruct (run_hook st1 es) as [st2 c2].
    assert (Hst1 : cleanup st1 = query_of <$> u'
                   ∧ c1 = option_list ((λ u, onSnapshot (query_of u)) <$> u')).
    { destruct u' as [u'|]; simpl in Heff; by injection Heff as <- <-. }
    destruct Hst1 as [Hc1 ->]. destruct (IH Hc1) as [IH1 IH2].
    split; [exact IH1|]. rewrite <- IH2, Hc1, !listeners_app. f_equal.
    destruct (cleanup st) as [q|]; destruct u' as [u'|]; simpl;
      try destruct (decide (q = q)); done.
  - specialize (IH (match cleanup st with
                    | Some _ => on_next tasksData st | None => st end) u).
    destruct (run_hook _ es) as [st2 c2]. simpl.
    assert (Hc : cleanup (match cleanup st with
                          | Some _ => on_next tasksData st | None => st end)
                 = cleanup st) by (destruct (cleanup st) eqn:E; simpl; by rewrite ?E).
    rewrite Hc in IH. by apply IH.
  - specialize (IH (match cleanup st with
                    | Some _ => on_error st | None => st end) u).
    destruct (run_hook _ es) as [st2 c2]. simpl.
    assert (Hc : cleanup (match cleanup st with
                          | Some _ => on_error st | None => st end)
                 = cleanup st) by (destruct (cleanup st) eqn:E; simpl; by rewrite ?E).
    rewrite Hc in IH. by apply IH.
Qed.

(** X6: at every moment of the hook's life the database holds at most one
    listener of this hook: none while there is no user, and otherwise
    exactly the live query on the "tasks" collection whose [userId] is the
    current user's identifier. Each earlier listener has been removed. *)
Theorem X6_one_listener_for_current_user (es : list Event) :
  let st := (run_hook initial es).1 in
  let calls := (run_hook initial es).2 in
  Repository.listeners [] calls
  = match current_user None es with
    | Some u => [mkQuery "tasks" "userId" (uid u)]
    | None => []
    end
  ∧ cleanup st = query_of <$> current_user None es.
Proof.
  intros st calls. subst st calls.
  pose proof (single_listener_from initial None es eq_refl) as H.
  destruct (run_hook initial es) as [st calls]. simpl in *.
  destruct H as [H1 H2]. split; [|exact H1].
  rewrite H2, H1. by destruct (current_user None es).
Qed.

End repository_more.

Section repository_data.
Import useTasks.

Lemma loading_stays_false st es :
  loading st = false → loading (run_hook st es).1 = false.
Proof.
  revert st. induction es as [|e es IH]; intros st Hl; simpl; [done|].
  destruct (step st e) as [st1 c1] eqn:Hstep.
  specialize (IH st1). destruct (run_hook st1 es) as [st2 c2]. simpl in *.
  apply IH. destruct e as [[u|]|ts|]; simpl in Hstep.
  - unfold user_changed in Hstep; simpl in Hstep. by injection Hstep as <- _.
  - unfold user_changed in Hstep; simpl in Hstep. by injection Hstep as <- _.
  - injection Hstep as <- _. by destruct (cleanup st).
  - injection Hstep as <- _. by destruct (cleanup st).
Qed.

(** X7: once [loading] is false it stays false, whatever happens next; in
    particular, when the user changes from one identity straight to
    another, the tasks of the previous user stay in [tasks], with
    [loading] false, while the only listener is already the new user's:
    they are replaced when the new listener delivers its first snapshot. *)
Theorem X7_loading_is_one_way (st : State) (es : list Event)
    (A B : User) (ts ts' : list Task.t) :
  (loading st = false → loading (run_hook st es).1 = false)
  ∧ (let switched :=
       run_hook initial [UserChanged (Some A); Snapshot ts; UserChanged (Some B)] in
     tasks switched.1 = ts
     ∧ loading switched.1 = false
     ∧ Repository.listeners [] switched.2 = [mkQuery "tasks" "userId" (uid B)])
  ∧ tasks (run_hook initial
             [UserChanged (Some A); Snapshot ts; UserChanged (Some B);
              Snapshot ts']).1 = ts'.
Proof.
  split; [apply loading_stays_false|]. split; [|done].
  simpl. split; [done|]. split; [done|].
  by destruct (decide (mkQuery "tasks" "userId" (uid A)
                       = mkQuery "tasks" "userId" (uid A))).
Qed.

Lemma X7_loading_is_one_way_witness :
  let t := Task.mk "t1" "Task A" "Desc" "General" medium "2025-01-01" false in
  loading (run_hook (mkState [t] false None None)
             [UserChanged (Some (mkUser "u1")); Snapshot []]).1 = false.
Proof.
  intros t.
  by apply (X7_loading_is_one_way (mkState [t] false None None)
              [UserChanged (Some (mkUser "u1")); Snapshot []]
              (mkUser "u1") (mkUser "u2") [] []).
Defined.

(** X8: what [addTask] writes for a user satisfies the live query the hook
    opens for that same user, in the same collection, and does not satisfy
    the query opened for a user with another identifier: a user's
    additions reach that user's own listener and nobody else's. *)
Theorem X8_own_additions_match_own_query (st : State) (u other : User)
    (written : Promise) (task : gmap string Value) :
  ∃ q data,
    (effect (Some u) st).2 = [onSnapshot q]
    ∧ (addTask (Some u) written task).2 = [addDoc (coll q) data]
    ∧ Repository.matches q data = true
    ∧ (uid other ≠ uid u →
       ∀ q', (effect (Some other) st).2 = [onSnapshot q'] →
             Repository.matches q' data = false).
Proof.
  eexists _, _. split; [done|]. split; [done|]. split.
  - apply bool_decide_eq_true. simpl. apply lookup_insert_eq.
  - intros Hne q' [= <-]. apply bool_decide_eq_false. simpl.
    rewrite lookup_insert_eq. congruence.
Qed.

(** X9: a task read from a snapshot has the fields of the document, and an
    [id]: the document's own [id] field when it has one, the document
    identifier otherwise. *)
Theorem X9_snapshot_task_fields (doc_id : string) (data : gmap string Value) :
  (∀ k, k ≠ "id" → Repository.task_of_doc doc_id data !! k = data !! k)
  ∧ (data !! "id" = None →
     Repository.task_of_doc doc_id data !! "id" = Some (VStr doc_id))
  ∧ (∀ v, data !! "id" = Some v →
     Repository.task_of_doc doc_id data !! "id" = Some v).
Proof.
  unfold Repository.task_of_doc. split; [|split].
  - intros k Hk. rewrite lookup_union_l; [done|]. by rewrite lookup_singleton_ne.
  - intros Hn. rewrite lookup_union_r; [|done]. apply lookup_singleton_eq.
  - intros v Hv. by apply lookup_union_Some_l.
Qed.

(** X10: a task created through the form and read back from a snapshot:
    it carries the document identifier as [id], the form's five fields
    as submitted, [completed] false and the creating user's identifier,
    and nothing else. *)
Theorem X10_created_task_read_back (u : User) (written : Promise)
    (t : TaskForm.NewTask) (doc_id : string) :
  ∃ data,
    (addTask (Some u) written (TaskFormInput.to_obj t)).2 = [addDoc "tasks" data]
    ∧ Repository.task_of_doc doc_id data =
        {[ "id" := VStr doc_id;
           "title" := VStr (TaskForm.new_title t);
           "description" := VStr (TaskForm.new_description t);
           "category" := VStr (TaskForm.new_category t);
           "priority" := VStr (priority_str (TaskForm.new_priority t));
           "dueDate" := VStr (TaskForm.new_dueDate t);
           "completed" := VBool false;
           "userId" := VStr (uid u) ]}.
Proof.
  eexists. split; [done|].
  apply map_eq. intros k. unfold Repository.task_of_doc, TaskFormInput.to_obj.
  destruct (decide (k = "id")) as [->|]; [done|].
  rewrite lookup_union_l by by rewrite lookup_singleton_ne.
  rewrite (lookup_insert_ne _ "id") by done.
  repeat (rewrite lookup_insert; case_decide; [subst; done|]).
  by rewrite !lookup_singleton_ne.
Qed.

End repository_data.

(** ** Trimming *)

Section trim_facts.

Lemma append_cons a s t : String a s +:+ t = String a (s +:+ t).
Proof. reflexivity. Qed.

Lemma append_nil_l t : "" +:+ t = t.
Proof. reflexivity. Qed.

Lemma append_nil_r s : s +:+ "" = s.
Proof. induction s as [|a s IH]; [done|]. by rewrite append_cons, IH. Qed.

Lemma append_assoc s t u : (s +:+ t) +:+ u = s +:+ (t +:+ u).
Proof. induction s as [|a s IH]; [done|]. by rewrite !append_cons, IH. Qed.

Lemma rev_app_append s t : String.rev_app s t = String.rev s +:+ t.
Proof.
  unfold String.rev. revert t. induction s as [|a s IH]; intros t; simpl; [done|].
  rewrite (IH (String a t)), (IH (String a "")), append_assoc. done.
Qed.

Lemma rev_cons a s : String.rev (String a s) = String.rev s +:+ String a "".
Proof. unfold String.rev at 1. simpl. apply rev_app_append. Qed.

Lemma rev_append s t : String.rev (s +:+ t) = String.rev t +:+ String.rev s.
Proof.
  induction s as [|a s IH].
  - by rewrite append_nil_l, append_nil_r.
  - by rewrite append_cons, !rev_cons, IH, append_assoc.
Qed.

Lemma rev_involutive s : String.rev (String.rev s) = s.
Proof.
  induction s as [|a s IH]; [done|].
  by rewrite rev_cons, rev_append, IH.
Qed.

Lemma trimStart_starts_black s : starts_black (Js.trimStart s).
Proof.
  induction s as [|a s IH]; simpl; [done|].
  by destruct (Js.is_white a) eqn:Ha.
Qed.

Lemma trimStart_id s : starts_black s → Js.trimStart s = s.
Proof. destruct s as [|a s]; simpl; [done|]. by intros ->. Qed.

Lemma trimStart_snoc s a :
  Js.is_white a = false →
  ∃ y, Js.trimStart (s +:+ String a "") = y +:+ String a "".
Proof.
  intros Ha. induction s as [|b s IH].
  - exists "". simpl. by rewrite Ha.
  - rewrite append_cons. simpl. destruct (Js.is_white b); [exact IH|].
    by exists (String b s).
Qed.

Lemma trimEnd_starts_black s : starts_black s → starts_black (Js.trimEnd s).
Proof.
  destruct s as [|a s]; [done|]. simpl. intros Ha. unfold Js.trimEnd.
  rewrite rev_cons.
  destruct (trimStart_snoc (String.rev s) a Ha) as [y ->].
  by rewrite rev_append.
Qed.

Lemma trimEnd_idem s : Js.trimEnd (Js.trimEnd s) = Js.trimEnd s.
Proof.
  unfold Js.trimEnd. rewrite rev_involutive.
  by rewrite (trimStart_id _ (trimStart_starts_black _)).
Qed.

Lemma trim_idem s : Js.trim (Js.trim s) = Js.trim s.
Proof.
  unfold Js.trim.
  rewrite (trimStart_id (Js.trimEnd (Js.trimStart s))).
  - apply trimEnd_idem.
  - apply trimEnd_starts_black, trimStart_starts_black.
Qed.

End trim_facts.

(** ** The create form, continued *)

Section form_more.
Import TaskForm.

Lemma validateForm_rejects st :
  (validateForm st).2 = false ↔
    String.length (Js.trim (title st)) < 3
    ∨ String.length (Js.trim (description st)) < 10
    ∨ dueDate st = "".
Proof.
  rewrite <- not_true_iff_false, validateForm_accepts.
  destruct (decide (dueDate st = "")) as [Hd|Hd]; [tauto|].
  split.
  - intros H.
    destruct (decide (String.length (Js.trim (title st)) < 3)); [tauto|].
    destruct (decide (String.length (Js.trim (description st)) < 10)); [tauto|].
    exfalso. apply H. repeat split; [lia | lia | done].
  - intros [? | [? | ?]] (? & ? & ?); done || lia.
Qed.

(** X11: a create-form submission with a trimmed title shorter than 3
    characters, a trimmed description shorter than 10, or an empty due date
    never calls [onSubmit]; it keeps every field as entered and leaves at
    least one validation message in [errors]. *)
Theorem X11_invalid_form_is_not_submitted (today : string)
    (onSubmit : NewTask → Promise) (st : State) :
  String.length (Js.trim (title st)) < 3
  ∨ String.length (Js.trim (description st)) < 10
  ∨ dueDate st = "" →
  let st' := (handleSubmit today onSubmit st).1 in
  (handleSubmit today onSubmit st).2 = []
  ∧ title st' = title st
  ∧ description st' = description st
  ∧ category st' = category st
  ∧ priority st' = priority st
  ∧ dueDate st' = dueDate st
  ∧ isSubmitting st' = isSubmitting st
  ∧ errors st' = (validateForm st).1
  ∧ errors st' ≠ ∅.
Proof.
  intros Hbad%validateForm_rejects st'. subst st'. unfold handleSubmit.
  destruct (validateForm st) as [newErrors valid] eqn:Hv.
  cbn [fst snd] in *. subst valid. cbn [negb fst snd].
  cbn [title description category priority dueDate isSubmitting errors].
  do 8 (split; [reflexivity|]).
  intros ->. unfold validateForm in Hv. injection Hv as H1 H2.
  rewrite H1 in H2. discriminate H2.
Qed.

Lemma X11_invalid_form_is_not_submitted_witness :
  let st := mkState "ab" "A valid description" "Work" high "2025-12-31" ∅ false in
  (handleSubmit "2026-01-15" (λ _, Resolves) st).2 = []
  ∧ title (handleSubmit "2026-01-15" (λ _, Resolves) st).1 = "ab".
Proof.
  intros st.
  destruct (X11_invalid_form_is_not_submitted "2026-01-15" (λ _, Resolves) st)
    as (H1 & H2 & _).
  - left. vm_compute. lia.
  - split; [exact H1 | exact H2].
Defined.

(** X12: whatever the state of the form, a submission calls [onSubmit] at
    most once, and what it passes is a valid task: title and description
    are the trimmed inputs, unchanged by a further trim, of at least 3 and
    10 characters, and the due date is not empty. *)
Theorem X12_submitted_task_is_valid (today : string)
    (onSubmit : NewTask → Promise) (st : State) :
  length (handleSubmit today onSubmit st).2 ≤ 1
  ∧ Forall
      (λ t,
         new_title t = Js.trim (title st)
         ∧ new_description t = Js.trim (description st)
         ∧ Js.trim (new_title t) = new_title t
         ∧ Js.trim (new_description t) = new_description t
         ∧ 3 ≤ String.length (new_title t)
         ∧ 10 ≤ String.length (new_description t)
         ∧ new_dueDate t ≠ ""
         ∧ new_category t = category st
         ∧ new_priority t = priority st)
      (handleSubmit today onSubmit st).2.
Proof.
  pose proof (validateForm_accepts st) as Hacc.
  unfold handleSubmit. destruct (validateForm st) as [newErrors valid].
  simpl in Hacc. destruct valid; simpl; [|split; [lia | constructor]].
  destruct Hacc as [(Ht & Hd & Hdue) _]; [done|].
  destruct (onSubmit _); simpl.
  all: split; [lia|]; constructor; [|constructor]; simpl.
  all: by rewrite !trim_idem.
Qed.

(** X13: the message stored for the title depends on the title alone:
    "Title is required" when it is blank, "Title must be at least 3
    characters" when its trimmed length is 1 or 2, none otherwise; the
    same for the description with 10; "Due date is required" exactly when
    the due date is empty; and no other key is ever set. *)
Theorem X13_validation_messages (st : State) :
  let errs := (validateForm st).1 in
  errs !! "title" =
    (if decide (Js.trim (title st) = "") then Some "Title is required"
     else if decide (String.length (Js.trim (title st)) < 3)
          then Some "Title must be at least 3 characters" else None)
  ∧ errs !! "description" =
    (if decide (Js.trim (description st) = "") then Some "Description is required"
     else if decide (String.length (Js.trim (description st)) < 10)
          then Some "Description must be at least 10 characters" else None)
  ∧ errs !! "dueDate" =
    (if decide (dueDate st = "") then Some "Due date is required" else None)
  ∧ ∀ k, k ≠ "title" → k ≠ "description" → k ≠ "dueDate" → errs !! k = None.
Proof.
  unfold validateForm, Js.truthy; simpl.
  repeat case_bool_decide; simpl;
    repeat match goal with
           | |- context [?n <? ?m] => destruct (Nat.ltb_spec n m)
           end;
    repeat case_decide; try done; try lia.
  all: do 3 (split; [done|]); intros k ? ? ?;
       by rewrite ?lookup_insert_ne, lookup_empty.
Qed.

End form_more.

Section form_inputs.
Import TaskForm TaskFormInput.




End form_inputs.

(** ** The task card *)

Section card_claims.
Import TaskCardView.

Lemma validateTask_rejects (T : Task.t) :
  (TaskCard.validateTask T).2 = false ↔
    String.length (Js.trim (Task.title T)) < 3
    ∨ String.length (Js.trim (Task.description T)) < 10.
Proof.
  rewrite <- not_true_iff_false, validateTask_accepts. lia.
Qed.

(** X15: saving an edit. With a trimmed title shorter than 3 or a trimmed
    description shorter than 10 characters nothing is sent and the card
    stays as it is, with a message. Otherwise [onEdit] is called once, with
    the identifier of the displayed task and the edited task exactly as
    typed (the fields are not trimmed); the card leaves edit mode if the
    call resolves, and keeps its mode and the edits if it rejects. *)
Theorem X15_saving_an_edit (task : Task.t) (saved : Promise) (st : State) :
  (String.length (Js.trim (Task.title (editedTask st))) < 3
   ∨ String.length (Js.trim (Task.description (editedTask st))) < 10 →
   (handleSave task saved st).2 = []
   ∧ isEditing (handleSave task saved st).1 = isEditing st
   ∧ editedTask (handleSave task saved st).1 = editedTask st
   ∧ errors (handleSave task saved st).1 ≠ ∅)
  ∧ (3 ≤ String.length (Js.trim (Task.title (editedTask st))) →
     10 ≤ String.length (Js.trim (Task.description (editedTask st))) →
     (handleSave task saved st).2 = [onEdit (Task.id task) (editedTask st)]
     ∧ editedTask (handleSave task saved st).1 = editedTask st
     ∧ errors (handleSave task saved st).1 = ∅
     ∧ (saved = Resolves → isEditing (handleSave task saved st).1 = false)
     ∧ (saved ≠ Resolves →
        isEditing (handleSave task saved st).1 = isEditing st)).
Proof.
  unfold handleSave.
  pose proof (validateTask_accepts (editedTask st)) as Hacc.
  pose proof (validateTask_rejects (editedTask st)) as Hrej.
  destruct (TaskCard.validateTask (editedTask st)) as [newErrors valid] eqn:Hv.
  cbn [fst snd] in *. split.
  - intros Hbad%Hrej. subst valid. cbn [negb fst snd].
    do 3 (split; [reflexivity|]). cbn [errors].
    intros ->. unfold TaskCard.validateTask in Hv. injection Hv as H1 H2.
    rewrite H1 in H2. discriminate H2.
  - intros Ht Hd. assert (valid = true) as -> by (apply Hacc; by split).
    cbn [negb]. unfold TaskCard.validateTask in Hv. injection Hv as H1 H2.
    rewrite H1 in H2. apply no_keys_spec in H2. subst newErrors.
    destruct saved as [|err]; cbn [fst snd editedTask errors isEditing];
      repeat split; done.
Qed.

Lemma X15_saving_an_edit_witness :
  let task := Task.mk "t1" "Write tests" "Write comprehensive unit tests"
                "engineering" medium "2025-12-25" false in
  let typed := Task.mk "t1" "  abc  " "Write comprehensive unit tests"
                 "engineering" medium "2025-12-25" false in
  let st := mkState true typed ∅ false false false in
  (handleSave task Resolves st).2 = [onEdit "t1" typed]
  ∧ Task.title typed = "  abc  ".
Proof.
  intros task typed st. split; [|reflexivity].
  apply (X15_saving_an_edit task Resolves st); vm_compute; lia.
Defined.

Lemma run_app task st es1 es2 :
  run task st (es1 ++ es2) =
    let '(st1, out1) := run task st es1 in
    let '(st2, out2) := run task st1 es2 in
    (st2, out1 ++ out2).
Proof.
  revert st. induction es1 as [|e es1 IH]; intros st; simpl.
  - by destruct (run task st es2).
  - destruct (step task st e) as [st1 o1]. rewrite IH.
    destruct (run task st1 es1) as [st2 o2].
    destruct (run task st2 es2) as [st3 o3]. by rewrite app_assoc.
Qed.

Lemma changes_keep_mode task st es :
  isEditing st = true → Forall is_change es →
  ∃ st', run task st es = (st', [])
         ∧ isEditing st' = true
         ∧ isSaving st' = isSaving st
         ∧ isDeleting st' = isDeleting st
         ∧ showDeleteModal st' = showDeleteModal st.
Proof.
  intros Hed Hes. revert st Hed.
  induction Hes as [|e es He _ IH]; intros st Hed; simpl; [by exists st|].
  unfold step. rewrite Hed.
  destruct e; try done; simpl.
  all: match goal with |- context [run _ ?s _] =>
         destruct (IH s) as (st' & -> & ? & ? & ? & ?); [done|];
         exists st'; simpl in *; by repeat split
       end.
Qed.

(** X16: cancelling an edit discards it: whatever was typed in the edit
    form, after Cancel the card is out of edit mode, its edited copy is
    again the displayed task, no message is left, and no prop was called. *)
Theorem X16_cancel_discards_the_edit (task : Task.t) (st : State)
    (es : list Event) :
  isEditing st = true → Forall is_change es →
  run task st (es ++ [ClickCancel]) = (handleCancel task st, [])
  ∧ editedTask (handleCancel task st) = task
  ∧ errors (handleCancel task st) = ∅
  ∧ isEditing (handleCancel task st) = false.
Proof.
  intros Hed Hes. split; [|done].
  destruct (changes_keep_mode task st es Hed Hes)
    as (st' & Hrun & Hed' & Hs & Hd & Hm).
  rewrite run_app, Hrun. simpl. unfold step. rewrite Hed'. simpl.
  unfold handleCancel. by rewrite Hs, Hd, Hm.
Qed.

Lemma X16_cancel_discards_the_edit_witness :
  let task := Task.mk "t1" "Write tests" "Write comprehensive unit tests"
                "engineering" medium "2025-12-25" false in
  (run task (initial task)
     [ClickEdit; ChangeTitle "x"; ChangeDueDate ""; ClickCancel]).1
  = initial task.
Proof.
  intros task. change (run task (initial task) _) with
    (run task (mkState true task ∅ false false false)
       ([ChangeTitle "x"; ChangeDueDate ""] ++ [ClickCancel])).
  rewrite (proj1 (X16_cancel_discards_the_edit task
                    (mkState true task ∅ false false false)
                    [ChangeTitle "x"; ChangeDueDate ""] eq_refl
                    ltac:(repeat constructor))).
  reflexivity.
Defined.




End card_claims.

(** ** The dashboard's handlers *)

Section dashboard_claims.
Import TaskManager Dashboard.
Context {objs : TaskObjects}.

(** X18: each of the dashboard's five handlers ends by showing exactly one
    notification: a success notification when the operation went through
    and an error notification when it failed. The text of an error
    notification is fixed per handler: what the repository or the identity
    service threw has no influence on the dashboard. *)
Theorem X18_one_notification_per_action (ui : UI) (id : string)
    (completed : bool) (edited : Task.t) (new : TaskForm.NewTask)
    (user : option useTasks.User) (written : Promise) (err err' : Thrown) :
  let ok := match written with Resolves => success | Rejects _ => error end in
  (shown_type (onToggle written id completed ui).1.2 = Some ok
   ∧ shown_type (onDelete written id ui).1.2 = Some ok
   ∧ shown_type (onEdit written id edited ui).1.2 = Some ok
   ∧ shown_type (handleLogout written ui).1 = Some ok
   ∧ shown_type (onSubmit user written new ui).1.2
     = Some (match user with Some _ => ok | None => error end))
  ∧ (onToggle (Rejects err) id completed ui = onToggle (Rejects err') id completed ui
     ∧ onDelete (Rejects err) id ui = onDelete (Rejects err') id ui
     ∧ onEdit (Rejects err) id edited ui = onEdit (Rejects err') id edited ui
     ∧ handleLogout (Rejects err) ui = handleLogout (Rejects err') ui
     ∧ onSubmit user (Rejects err) new ui = onSubmit user (Rejects err') new ui)
  ∧ (timers (notes (onToggle written id completed ui).1.2)
     = timers (notes ui) ++ [now (notes ui) + 3000]
     ∧ timers (notes (onDelete written id ui).1.2)
       = timers (notes ui) ++ [now (notes ui) + 3000]
     ∧ timers (notes (onEdit written id edited ui).1.2)
       = timers (notes ui) ++ [now (notes ui) + 3000]
     ∧ timers (notes (handleLogout written ui).1)
       = timers (notes ui) ++ [now (notes ui) + 3000]
     ∧ timers (notes (onSubmit user written new ui).1.2)
       = timers (notes ui) ++ [now (notes ui) + 3000]).
Proof.
  unfold shown_type, onToggle, onDelete, onEdit, handleLogout, onSubmit.
  destruct written as [|e], user as [u|]; simpl; repeat split; reflexivity.
Qed.

(** X19: clicking the completion button of a displayed card writes the
    opposite of the task's [completed] flag, and only that field, to the
    task's document; when the write succeeds the notification reads "Task
    completed!" for a task that was not completed and "Task marked as
    incomplete" for one that was. The card itself does not change. *)
Theorem X19_toggle_writes_the_opposite (written : Promise) (task : Task.t)
    (st : TaskCardView.State) (ui : UI) :
  TaskCardView.isEditing st = false →
  let '(st', ui', writes) :=
    card_event written task st ui TaskCardView.ClickToggle in
  st' = st
  ∧ writes = [Repository.updateDoc "tasks" (Task.id task)
                {[ "completed" := useTasks.VBool (negb (Task.completed task)) ]}]
  ∧ (written = Resolves →
     notification (notes ui')
     = Some (mkNotification
               (if Task.completed task then "Task marked as incomplete"
                else "Task completed!") success)).
Proof.
  intros Hview. unfold card_event, TaskCardView.step. rewrite Hview. simpl.
  split; [done|]. split; [done|]. by intros ->.
Qed.

(** X20: submitting a valid create form in the dashboard. When there is a
    user and the write succeeds, one record is added and the form is
    closed. When there is no user or the write fails, the dashboard shows
    "Failed to create task. Please try again." and keeps the form open,
    but the form has been reset to its defaults all the same, because the
    dashboard's callback resolves: what the user typed is gone. *)
Theorem X20_failed_creation_resets_the_form (today : string)
    (user : option useTasks.User) (written : Promise)
    (form : TaskForm.State) (ui : UI) :
  (TaskForm.validateForm form).2 = true →
  let '(form', ui', calls) := submit_form today user written form ui in
  form' = TaskForm.initial today
  ∧ (is_Some user → written = Resolves →
     showForm ui' = false
     ∧ shown_type ui' = Some success
     ∧ ∃ data, calls = [useTasks.addDoc "tasks" data])
  ∧ (user = None ∨ written ≠ Resolves →
     showForm ui' = showForm ui
     ∧ notification (notes ui')
       = Some (mkNotification "Failed to create task. Please try again." error)).
Proof.
  intros Hvalid. unfold submit_form, TaskForm.handleSubmit.
  destruct (TaskForm.validateForm form) as [newErrors valid].
  simpl in Hvalid. subst valid. cbn [negb].
  unfold onSubmit, useTasks.addTask.
  destruct user as [u|], written as [|err]; simpl.
  - split; [done|]. split; [eauto|]. intros [? | ?]; done.
  - split; [done|]. split; [by intros _ ?|]. done.
  - split; [done|]. split; [by intros [] |]. done.
  - split; [done|]. split; [by intros [] |]. done.
Qed.

Lemma X20_failed_creation_resets_the_form_witness :
  let form := TaskForm.mkState "New Task" "A valid description" "Work" high
                "2025-12-31" ∅ false in
  (submit_form "2026-01-15" (Some (useTasks.mkUser "u1"))
     (Rejects (ErrorObj "Firestore error")) form (mkUI true false initial)).1.1
  = TaskForm.initial "2026-01-15".
Proof.
  intros form.
  pose proof (X20_failed_creation_resets_the_form "2026-01-15"
                (Some (useTasks.mkUser "u1"))
                (Rejects (ErrorObj "Firestore error")) form
                (mkUI true false initial)) as H.
  destruct (submit_form _ _ _ _ _) as [[form' ui'] calls].
  apply H. by vm_compute.
Defined.


End dashboard_claims.

Lemma X19_toggle_writes_the_opposite_witness :
  let task := Task.mk "1" "Task" "Some description" "Personal" medium
                "2025-12-25" false in
  (Dashboard.card_event (objs := owned_by "u1") Resolves task
     (TaskCardView.initial task)
     (Dashboard.mkUI false false TaskManager.initial) TaskCardView.ClickToggle).2
  = [Repository.updateDoc "tasks" "1" {[ "completed" := useTasks.VBool true ]}].
Proof.
  intros task.
  pose proof (X19_toggle_writes_the_opposite (objs := owned_by "u1") Resolves
                task (TaskCardView.initial task)
                (Dashboard.mkUI false false TaskManager.initial) eq_refl)
    as H.
  destruct (Dashboard.card_event _ _ _ _ _) as [[st' ui'] writes].
  destruct H as (_ & -> & _). reflexivity.
Defined.


(** ** Registration, login and the protected route, continued *)

Section auth_more.

(** X22: after a registration submit exactly one of the error and the
    success message is set; the success message and the delayed redirect
    to "/" come together and only after the identity service accepted the
    sign-up; and the loading flag is off whenever the service was called. *)
Theorem X22_register_error_xor_success
    (signUp : string → string → Promise) (st : Register.State) :
  let st' := (Register.handleSubmit signUp st).1 in
  let out := (Register.handleSubmit signUp st).2 in
  (Register.error st' = None ↔ is_Some (Register.success st'))
  ∧ (is_Some (Register.success st') ↔ Register.navigateAfter "/" 1500 ∈ out)
  ∧ (is_Some (Register.success st') →
     signUp (Register.email st) (Register.password st) = Resolves
     ∧ Register.password st = Register.confirmPassword st
     ∧ 6 ≤ String.length (Register.password st))
  ∧ (out ≠ [] → Register.loading st' = false).
Proof.
  unfold Register.handleSubmit.
  case_bool_decide as Heq; simpl.
  - destruct (Nat.ltb_spec (String.length (Register.password st)) 6); simpl.
    + split; [split; [done | by intros []]|].
      split; [split; [by intros [] | by intros ?%elem_of_nil]|].
      split; [by intros [] | done].
    + destruct (signUp _ _) as [|[m|]] eqn:Hs; simpl.
      * split; [split; eauto|]. split; [split; [|eauto]|].
        -- intros _. apply list_elem_of_further, list_elem_of_here.
        -- split; [done | done].
      * split; [split; [done | by intros []]|].
        split; [split; [by intros [] |]|].
        -- intros [?|?%elem_of_nil]%elem_of_cons; done.
        -- split; [by intros [] | done].
      * split; [split; [done | by intros []]|].
        split; [split; [by intros [] |]|].
        -- intros [?|?%elem_of_nil]%elem_of_cons; done.
        -- split; [by intros [] | done].
  - split; [split; [done | by intros []]|].
    split; [split; [by intros [] | by intros ?%elem_of_nil]|].
    split; [by intros [] | done].
Qed.

Lemma fixed_text_has_no_code (message : string) :
  Js.includes message "invalid-credential" = false →
  Js.includes message "user-not-found" = false →
  Js.includes message "wrong-password" = false →
  Js.includes message "too-many-requests" = false →
  ¬ contains message "invalid-credential"
  ∧ ¬ contains message "user-not-found"
  ∧ ¬ contains message "wrong-password"
  ∧ ¬ contains message "too-many-requests".
Proof. rewrite !includes_false. tauto. Qed.

(** X23: whatever message the identity service rejects a sign-in with,
    the text the login form shows contains none of the four error codes
    the form looks for; and the form navigates to "/" exactly when the
    sign-in resolved, in which case no error is shown. *)
Theorem X23_login_shows_no_error_code
    (signIn : string → string → Promise) (st : Login.State)
    (message : string) :
  (¬ contains (Login.errorMessage message) "invalid-credential"
   ∧ ¬ contains (Login.errorMessage message) "user-not-found"
   ∧ ¬ contains (Login.errorMessage message) "wrong-password"
   ∧ ¬ contains (Login.errorMessage message) "too-many-requests")
  ∧ (Login.navigate "/" ∈ (Login.handleSubmit signIn st).2
     ↔ signIn (Login.email st) (Login.password st) = Resolves)
  ∧ (Login.error (Login.handleSubmit signIn st).1 = None
     ↔ signIn (Login.email st) (Login.password st) = Resolves)
  ∧ Login.loading (Login.handleSubmit signIn st).1 = false.
Proof.
  split.
  - unfold Login.errorMessage.
    destruct (Js.includes message "invalid-credential") eqn:H1;
      [by apply fixed_text_has_no_code|].
    destruct (Js.includes message "user-not-found") eqn:H2;
      [by apply fixed_text_has_no_code|].
    destruct (Js.includes message "wrong-password") eqn:H3;
      [by apply fixed_text_has_no_code|].
    destruct (Js.includes message "too-many-requests") eqn:H4;
      [by apply fixed_text_has_no_code|].
    by apply fixed_text_has_no_code.
  - unfold Login.handleSubmit.
    destruct (signIn _ _) as [|[m|]]; simpl.
    + split; [split; [done|]|split; [done | done]].
      intros _. apply list_elem_of_further, list_elem_of_here.
    + split; [split; [|done]|split; [done | done]].
      intros [?|?%elem_of_nil]%elem_of_cons; done.
    + split; [split; [|done]|split; [done | done]].
      intros [?|?%elem_of_nil]%elem_of_cons; done.
Qed.

Lemma auth_run_snoc us u :
  useAuth.run (us ++ [u]) = useAuth.on_auth_state u (useAuth.run us).
Proof. unfold useAuth.run. by rewrite fold_left_app. Qed.

(** X24: the protected route shows the spinner exactly until the identity
    service has delivered its first notification; from then on it renders
    the protected page exactly when the last notification carried a user,
    and redirects to "/login" exactly when the last one carried none. *)
Theorem X24_protected_route_follows_last_identity
    (us : list (option useTasks.User)) :
  (ProtectedRoute.render (useAuth.run us) = ProtectedRoute.Spinner ↔ us = [])
  ∧ (ProtectedRoute.render (useAuth.run us) = ProtectedRoute.Outlet
     ↔ ∃ u, last us = Some (Some u))
  ∧ (ProtectedRoute.render (useAuth.run us) = ProtectedRoute.Navigate "/login"
     ↔ last us = Some None).
Proof.
  destruct us as [|u0 us] using rev_ind.
  - simpl. split; [done|]. split; [|done]. split; [done | by intros [? ?]].
  - rewrite auth_run_snoc, last_snoc. unfold ProtectedRoute.render; simpl.
    destruct u0 as [u|].
    + split; [split; [done | intros H; by destruct us] |].
      split; [split; eauto | done].
    + split; [split; [done | intros H; by destruct us] |].
      split; [split; [done | by intros [? ?]] | done].
Qed.

(** The three priorities get three different colour classes, none of them
    the grey fallback, which is what any other string gets. *)
Lemma priority_colours (p p' : Priority) (other : string) :
  (TaskCardView.getPriorityColor (priority_str p)
   = TaskCardView.getPriorityColor (priority_str p') → p = p')
  ∧ TaskCardView.getPriorityColor (priority_str p) ≠ "bg-gray-100 border-gray-500"
  ∧ (other ≠ "high" → other ≠ "medium" → other ≠ "low" →
     TaskCardView.getPriorityColor other = "bg-gray-100 border-gray-500").
Proof.
  split; [by destruct p, p'|]. split; [by destruct p|].
  intros H1 H2 H3. unfold TaskCardView.getPriorityColor.
  by rewrite !bool_decide_eq_false_2.
Qed.

End auth_more.

(** ** What the dashboard renders *)

Section view_claims.
Import useTasks.

(** X25: the dashboard shows its loading screen exactly while the hook is
    loading. Otherwise it shows the empty-state message exactly when no
    task passes the filters, and one card per passing task, in order,
    when some do. In the application the hook's first effect runs with no
    user (the session store starts with null), so the loading screen is
    that of the first render only: after the mount-time run it is never
    shown again, and a user who signs in sees the empty state, without an
    error banner, both before the first snapshot arrives and when that
    snapshot is empty, whatever the filters are. *)
Theorem X25_dashboard_view (st : State) (f : TaskManager.Filters) (u : User)
    (es : list Event) :
  (DashboardView.render st f = DashboardView.Loading ↔ loading st = true)
  ∧ (loading st = false →
     ∃ banner list,
       DashboardView.render st f = DashboardView.Page banner list
       ∧ (list = TaskList.EmptyState
          ↔ ∀ t, t ∈ tasks st → TaskManager.keep f t = false)
       ∧ (list ≠ TaskList.EmptyState →
          list = TaskList.Cards (TaskManager.filteredTasks f (tasks st))))
  ∧ DashboardView.render initial f = DashboardView.Loading
  ∧ DashboardView.render (run_hook initial (UserChanged None :: es)).1 f
    ≠ DashboardView.Loading
  ∧ DashboardView.render
      (run_hook initial [UserChanged None; UserChanged (Some u)]).1 f
    = DashboardView.Page None TaskList.EmptyState
  ∧ DashboardView.render
      (run_hook initial [UserChanged None; UserChanged (Some u); Snapshot []]).1 f
    = DashboardView.Page None TaskList.EmptyState.
Proof.
  split; [unfold DashboardView.render; by destruct (loading st)|].
  split.
  - unfold DashboardView.render. intros ->. eexists _, _. split; [reflexivity|].
    unfold TaskList.render, TaskManager.filteredTasks.
    case_bool_decide as Hlen.
    + split; [|done]. split; [|done]. intros _.
      apply filter_nil_iff. by apply length_zero_iff_nil.
    + split; [|done]. split; [done|]. intros Hall. exfalso. apply Hlen.
      apply length_zero_iff_nil. by apply filter_nil_iff.
  - split; [done|]. split; [|done].
    assert (Hl : loading (run_hook initial (UserChanged None :: es)).1 = false).
    { cbn [run_hook].
      change (step initial (UserChanged None))
        with (mkState [] false None None, @nil Call).
      cbv iota beta.
      match goal with |- context [run_hook ?s es] =>
        generalize (loading_stays_false s es eq_refl);
        destruct (run_hook s es) as [st2 c2]
      end.
      by intros Hl. }
    unfold DashboardView.render. by rewrite Hl.
Qed.

End view_claims.

Section delete_flow.
Import TaskManager Dashboard.
Context {objs : TaskObjects}.

(** X26: confirming the deletion dialog of a displayed card deletes the
    task's document, and only then: with the dialog open, Confirm issues
    one delete of the task's document, closes the dialog and leaves the
    card not deleting, whether or not the delete succeeded; Cancel closes
    the dialog without any write; and with the dialog closed neither does
    anything. *)
Theorem X26_delete_flow (written deleted : Promise) (task : Task.t)
    (st : TaskCardView.State) (ui : UI) :
  TaskCardView.isEditing st = false →
  (TaskCardView.showDeleteModal st = true →
   (let '(st', ui', writes) :=
      card_event written task st ui (TaskCardView.ConfirmDelete deleted) in
    writes = [Repository.deleteDoc "tasks" (Task.id task)]
    ∧ TaskCardView.showDeleteModal st' = false
    ∧ TaskCardView.isDeleting st' = false
    ∧ shown_type ui'
      = Some (match written with Resolves => success | Rejects _ => error end))
   ∧ (let '(st', ui', writes) :=
        card_event written task st ui TaskCardView.CancelDelete in
      writes = [] ∧ ui' = ui ∧ TaskCardView.showDeleteModal st' = false))
  ∧ (TaskCardView.showDeleteModal st = false →
     card_event written task st ui (TaskCardView.ConfirmDelete deleted)
     = (st, ui, [])
     ∧ card_event written task st ui TaskCardView.CancelDelete = (st, ui, [])).
Proof.
  intros Hview. unfold card_event, TaskCardView.step. rewrite Hview.
  split; intros ->; simpl; [|done].
  destruct written; simpl; by repeat split.
Qed.

End delete_flow.

Lemma X26_delete_flow_witness :
  let task := Task.mk "t1" "Write tests" "Write comprehensive unit tests"
                "engineering" medium "2025-12-25" false in
  let asked := TaskCardView.mkState false task ∅ false false true in
  let result :=
    Dashboard.card_event (objs := owned_by "u1") (Rejects NotAnError) task asked
      (Dashboard.mkUI false false TaskManager.initial)
      (TaskCardView.ConfirmDelete Resolves) in
  result.2 = [Repository.deleteDoc "tasks" "t1"]
  ∧ TaskCardView.showDeleteModal result.1.1 = false
  ∧ shown_type result.1.2 = Some TaskManager.error.
Proof.
  intros task asked result. subst result.
  destruct (X26_delete_flow (objs := owned_by "u1") (Rejects NotAnError)
              Resolves task asked
              (Dashboard.mkUI false false TaskManager.initial) eq_refl)
    as [Hopen _].
  destruct (Hopen eq_refl) as [Hconfirm _].
  destruct (Dashboard.card_event _ _ _ _ _) as [[st' ui'] writes].
  destruct Hconfirm as (Hw & Hm & _ & Hn). by repeat split.
Defined.
